(** * Smart Recipe Finder: the offline ranking engine of [app2.py]

    A shallow embedding of the ingredient normaliser, the offline scoring
    and ranking function, the remote gateway adapter and the "Find Recipes"
    and "Like" handlers of [app2.py], followed by the properties the
    specification states about them.

    Conventions.
    - A Python [str] is a [string] whose characters are the code points
      U+0000..U+00FF; [lower] and [strip] follow [str.lower] and [str.strip]
      on that range.
    - The score [exact * 2 + partial + taste_bonus * 0.5] is a Python float
      whose value is a small multiple of one half, hence exact; it is a
      rational here and compared with [==], [<] and [<=] of [Q].
    - [recipes_df] is a list of rows carrying the default index 0, 1, 2, ...
      so that the label [idx] of [iterrows] is the position of the row. *)

From Stdlib Require Import List String Ascii Bool Arith ZArith QArith Lia.
From Stdlib Require Import Sorted Permutation.
Import ListNotations.

Close Scope Q_scope.
Local Open Scope string_scope.
Local Open Scope list_scope.
Local Open Scope nat_scope.

(** ** Python strings *)

Module PyStr.

(** [str.lower] on one code point: A-Z and the Latin-1 capitals
    U+00C0..U+00DE (except the multiplication sign U+00D7) move up by 32. *)
Definition lower_char (c : ascii) : ascii :=
  let n := N_of_ascii c in
  if ((65 <=? n) && (n <=? 90)
      || (192 <=? n) && (n <=? 222) && negb (n =? 215))%N
  then ascii_of_N (n + 32) else c.

Fixpoint lower (s : string) : string :=
  match s with
  | EmptyString => EmptyString
  | String c s' => String (lower_char c) (lower s')
  end.

(** [str.isspace] on one code point: TAB..CR, FS..US, SPACE, NEL, NBSP. *)
Definition is_space (c : ascii) : bool :=
  let n := N_of_ascii c in
  ((9 <=? n) && (n <=? 13) || (28 <=? n) && (n <=? 32)
   || (n =? 133) || (n =? 160))%N.

Fixpoint lstrip (s : string) : string :=
  match s with
  | EmptyString => EmptyString
  | String c s' => if is_space c then lstrip s' else s
  end.

Fixpoint rstrip (s : string) : string :=
  match s with
  | EmptyString => EmptyString
  | String c s' =>
      match rstrip s' with
      | EmptyString => if is_space c then EmptyString else String c EmptyString
      | r => String c r
      end
  end.

(** [s.strip()] *)
Definition strip (s : string) : string := rstrip (lstrip s).

(** [s.split(sep)] for a one-character separator: never the empty list. *)
Fixpoint split (sep : ascii) (s : string) : list string :=
  match s with
  | EmptyString => [EmptyString]
  | String c s' =>
      if Ascii.eqb c sep then EmptyString :: split sep s'
      else match split sep s' with
           | h :: t => String c h :: t
           | [] => [String c EmptyString]
           end
  end.

(** [sep.join(l)] *)
Fixpoint join (sep : string) (l : list string) : string :=
  match l with
  | [] => EmptyString
  | [x] => x
  | x :: rest => (x ++ sep ++ join sep rest)%string
  end.

(** [s.replace(old, new)] for a one-character [old]. *)
Fixpoint replace (old : ascii) (new : string) (s : string) : string :=
  match s with
  | EmptyString => EmptyString
  | String c s' =>
      if Ascii.eqb c old then (new ++ replace old new s')%string
      else String c (replace old new s')
  end.

(** [x in l] for a list of strings. *)
Definition elem (x : string) (l : list string) : bool :=
  existsb (String.eqb x) l.

(** [bool(s)]: a string is truthy when it is not empty. *)
Definition truthy (s : string) : bool :=
  match s with EmptyString => false | String _ _ => true end.

End PyStr.

(** ** Ingredient synonyms *)

(** The dict literal [ingredient_synonyms], in source order; its keys are
    pairwise distinct, so the first match is the dict's value. *)
Definition ingredient_synonyms : list (string * string) :=
  [ ("bhindi", "okra"); ("ghee", "clarified butter"); ("idli rice", "parboiled rice");
    ("paneer", "cottage cheese"); ("panner", "cottage cheese"); ("malai", "cream");
    ("curd", "yogurt"); ("dahi", "yogurt"); ("jaggery", "unrefined cane sugar");
    ("imli", "tamarind"); ("til", "sesame"); ("rajma", "kidney beans");
    ("lobia", "black eyed peas"); ("chole", "chickpeas");
    ("soya chunks", "textured vegetable protein");
    ("rava", "semolina"); ("suji", "semolina"); ("atta", "wheat flour");
    ("maida", "all-purpose flour"); ("besan", "gram flour"); ("sabudana", "tapioca pearls");
    ("poha", "flattened rice"); ("haldi", "turmeric"); ("adrak", "ginger");
    ("lasun", "garlic"); ("mirchi", "chili"); ("drumstick", "moringa");
    ("tofu", "soy paneer"); ("jeera", "cumin"); ("methi", "fenugreek");
    ("pulao", "fried rice"); ("kachumber", "salad"); ("dal", "lentils");
    ("roti", "flatbread") ].

(** [d.get(k)] on a dict given by its items. *)
Fixpoint dict_get (d : list (string * string)) (k : string) : option string :=
  match d with
  | [] => None
  | (k', v) :: d' => if String.eqb k k' then Some v else dict_get d' k
  end.

(** [normalize_ingredient]: lower-case, strip, then
    [ingredient_synonyms.get(ing, ing)]. *)
Definition normalize_ingredient (ing : string) : string :=
  let ing := PyStr.strip (PyStr.lower ing) in
  match dict_get ingredient_synonyms ing with
  | Some canon => canon
  | None => ing
  end.

(** [x < y] on scores. *)
Definition Qlt_bool (x y : Q) : bool := negb (Qle_bool y x).

(** ** Fuzzy matching *)

Module Fuzz.

(** Length of a longest common subsequence. *)
Fixpoint lcs (a b : list ascii) : nat :=
  match a with
  | [] => 0
  | x :: a' =>
      (fix against (b : list ascii) : nat :=
         match b with
         | [] => 0
         | y :: b' =>
             if Ascii.eqb x y then S (lcs a' b')
             else Nat.max (lcs a' b) (against b')
         end) b
  end.

(** Insertions and deletions that turn [a] into [b]. *)
Definition indel_distance (a b : list ascii) : nat :=
  List.length a + List.length b - 2 * lcs a b.

(** [1 - distance / (len(a) + len(b))], and 1 for two empty sequences. *)
Definition indel_normalized_similarity (a b : list ascii) : Q :=
  let maximum := (List.length a + List.length b)%nat in
  if maximum =? 0 then 1%Q
  else (1 - inject_Z (Z.of_nat (indel_distance a b)) / inject_Z (Z.of_nat maximum))%Q.

(** The alignments of a needle of length [len1] inside [s2]: the proper
    prefixes shorter than the needle, every window as long as the needle,
    and the suffixes no longer than the needle. *)
Definition windows (len1 : nat) (s2 : list ascii) : list (list ascii) :=
  let len2 := List.length s2 in
  (map (fun i => firstn i s2) (seq 1 (len1 - 1))
   ++ map (fun i => firstn len1 (skipn i s2)) (seq 0 (len2 - len1))
   ++ map (fun i => skipn i s2) (seq (len2 - len1) len1))%list.

(** Best similarity of [s1] against an alignment in [s2], times 100;
    assumes [s1] is not longer than [s2]. *)
Definition partial_ratio_impl (s1 s2 : list ascii) : Q :=
  (fold_left
    (fun score w =>
       let ls_ratio := indel_normalized_similarity s1 w in
       if Qlt_bool score ls_ratio then ls_ratio else score)
    (windows (List.length s1) s2) 0%Q
  * 100)%Q.

(** Modelled from the spec: [fuzz.partial_ratio] belongs to the rapidfuzz
    package, which [app2.py] imports and which is not part of the source
    tree.  The specification describes it as the classic partial ratio,
    the best-aligned substring overlap of the two strings normalised to
    0..100.  This is that measure as rapidfuzz defines it: the shorter
    string is aligned against the longer one, each alignment is scored by
    the normalised insertion/deletion similarity, and the best score is
    kept; two empty strings score 100, an empty against a non-empty
    string scores 0, and for strings of equal length both directions are
    tried.  The library computes in floating point; the comparison with
    the threshold 75 is the same on these rationals for strings of any
    realistic length. *)
Definition partial_ratio (s1 s2 : string) : Q :=
  let a := list_ascii_of_string s1 in
  let b := list_ascii_of_string s2 in
  let len1 := List.length a in
  let len2 := List.length b in
  if (len1 =? 0) || (len2 =? 0) then
    if len1 =? len2 then 100%Q else 0%Q
  else
    let (shorter, longer) := if len1 <=? len2 then (a, b) else (b, a) in
    let res := partial_ratio_impl shorter longer in
    if negb (Qeq_bool res 100) && (len1 =? len2) then
      let res2 := partial_ratio_impl longer shorter in
      if Qlt_bool res res2 then res2 else res
    else res.

End Fuzz.

(** ** Data *)

(** A row of [recipes_df]. *)
Record Row := mkRow { row_title : string; row_ingredients : list string }.

(** A number or a string, as the metadata fields of a recipe dict hold. *)
Inductive meta := MInt (n : Z) | MStr (s : string).

(** A recipe dict in the metadata shape built by [get_recipes_from_api],
    [enrich_offline_recipe] and the offline like handler.  [title] is
    [None] for Python's [None]; [ingredients] is [None] when the dict has
    no such key, which [recipe.get("ingredients", [])] allows for. *)
Record Recipe := mkRecipe {
  title : option string;
  readyInMinutes : meta;
  servings : meta;
  sourceUrl : string;
  image : string;
  cuisines : string;
  nutrition : string;
  ingredients : option (list string)
}.

(** The taste memory [{"liked": [...]}]. *)
Record UserTaste := mkTaste { liked : list Recipe }.

(** A row of the frame returned by [search_offline_recipes], with its
    index label and the columns title, ingredients and Match Score. *)
Record ResultRow := mkResult {
  res_idx : nat;
  res_title : string;
  res_ingredients : list string;
  match_score : Q
}.

(** ** Python helpers *)

(** [sum(...)] over integers. *)
Definition py_sum (l : list Z) : Z := fold_left Z.add l 0%Z.

(** [sum(1 for x in l if cond(x))] *)
Definition sum_1_for_if {A} (cond : A -> bool) (l : list A) : Z :=
  py_sum (map (fun _ => 1%Z) (filter cond l)).

(** [d.get(key, default)] *)
Definition get_default {A} (o : option A) (default : A) : A :=
  match o with Some v => v | None => default end.

(** [sorted(l, key=key, reverse=True)]: the stable sort by decreasing key;
    an element goes in front of the first one whose key is not greater. *)
Fixpoint insert_desc {A} (key : A -> Q) (x : A) (l : list A) : list A :=
  match l with
  | [] => [x]
  | y :: l' => if Qlt_bool (key x) (key y) then y :: insert_desc key x l'
               else x :: l
  end.

Fixpoint sorted_reverse {A} (key : A -> Q) (l : list A) : list A :=
  match l with
  | [] => []
  | x :: l' => insert_desc key x (sorted_reverse key l')
  end.

(** [df.iterrows()]: the rows with their index labels. *)
Definition iterrows (df : list Row) : list (nat * Row) :=
  combine (seq 0 (List.length df)) df.

(** [df.loc[labels]]: the rows with these labels; a label that the frame
    does not have raises KeyError, here [None]. *)
Fixpoint loc (df : list Row) (labels : list nat) : option (list (nat * Row)) :=
  match labels with
  | [] => Some []
  | i :: rest =>
      match nth_error df i, loc df rest with
      | Some row, Some rows => Some ((i, row) :: rows)
      | _, _ => None
      end
  end.

(** ** Offline smart search *)

Section OfflineSearch.

(** The scorer [fuzz.partial_ratio] and the frame [recipes_df], which the
    source reads from module level. *)
Variable partial_ratio : string -> string -> Q.
Variable recipes_df : list Row.

(** [liked_ings]: the normalised ingredients of every liked recipe. *)
Definition liked_ingredients (user_taste : UserTaste) : list string :=
  flat_map (fun recipe => map normalize_ingredient (get_default (ingredients recipe) []))
           (liked user_taste).

Definition exact_matches (ingredients recipe_ings : list string) : Z :=
  sum_1_for_if (fun ing => PyStr.elem ing recipe_ings) ingredients.

Definition partial_matches (ingredients recipe_ings : list string) : Z :=
  sum_1_for_if
    (fun ing => existsb (fun r_ing => Qlt_bool 75 (partial_ratio ing r_ing)) recipe_ings)
    ingredients.

Definition taste_bonus (recipe_ings liked_ings : list string) : Z :=
  sum_1_for_if (fun ing => PyStr.elem ing liked_ings) recipe_ings.

(** The body of the loop up to [score]. *)
Definition row_score (ingredients liked_ings : list string) (row : Row) : Q :=
  let recipe_ings := map normalize_ingredient (row_ingredients row) in
  let exact := exact_matches ingredients recipe_ings in
  let partial := partial_matches ingredients recipe_ings in
  let taste_bonus := taste_bonus recipe_ings liked_ings in
  (inject_Z exact * 2 + inject_Z partial + inject_Z taste_bonus * (1 # 2))%Q.

(** The list [results] after the loop over [recipes_df.iterrows()]. *)
Definition scored_results (ingredients liked_ings : list string) : list (nat * Q) :=
  fold_left
    (fun results '(idx, row) =>
       let score := row_score ingredients liked_ings row in
       if Qlt_bool 0 score then (results ++ [(idx, score)])%list else results)
    (iterrows recipes_df) [].

(** The list [top]. *)
Definition top_results (user_input : string) (user_taste : UserTaste) : list (nat * Q) :=
  let ingredients := map normalize_ingredient (PyStr.split "," user_input) in
  let liked_ings := liked_ingredients user_taste in
  firstn 20 (sorted_reverse snd (scored_results ingredients liked_ings)).

(** [search_offline_recipes]: the rows of the returned frame, [Some []]
    for the empty frame, [None] if [.loc] raised. *)
Definition search_offline_recipes (user_input : string) (user_taste : UserTaste)
  : option (list ResultRow) :=
  let ingredients := map normalize_ingredient (PyStr.split "," user_input) in
  let liked_ings := liked_ingredients user_taste in
  let results := scored_results ingredients liked_ings in
  match results with
  | [] => Some []
  | _ :: _ =>
      let top := firstn 20 (sorted_reverse snd results) in
      match loc recipes_df (map fst top) with
      | Some df =>
          Some (map (fun '((i, row), s) => mkResult i (row_title row) (row_ingredients row) s)
                    (combine df (map snd top)))
      | None => None
      end
  end.

End OfflineSearch.

(** ** Spoonacular gateway *)

Definition DEFAULT_IMAGE : string :=
  "https://via.placeholder.com/200x140.png?text=No+Image".

(** One element [x] of [data["results"]] that is a JSON object; a field is
    [None] when the key is absent.  A title that is present is a string or
    JSON null, the latter [Some None]. *)
Record ApiItem := mkItem {
  x_title : option (option string);
  x_readyInMinutes : option meta;
  x_servings : option meta;
  x_sourceUrl : option string;
  x_image : option string;
  x_cuisines : option (list string)
}.

(** An element of [data["results"]]: [BadItem e] when building the recipe
    dict from it raises [e] (the element is not an object, so [x.get]
    raises, or its cuisines are null or otherwise cannot be joined), and
    else the object. *)
Inductive ApiElement :=
| BadItem (e : string)
| GoodItem (x : ApiItem).

(** What the body of the answer leads to: [NotJson e] when [r.json()] or
    the test of the ["results"] entry raises [e]; [Data None] when [data]
    has no such entry; and else the elements of [data["results"]]. *)
Inductive Body :=
| NotJson (e : string)
| Data (results : option (list ApiElement)).

(** What [requests.get] gives: an exception or a response. *)
Inductive HttpResult :=
| Raised (e : string)
| Responded (status_code : Z) (body : Body).

(** The query parameters next to the API key and [addRecipeInformation]. *)
Record Params := mkParams {
  includeIngredients : option string;
  query : option string;
  number : Z;
  diet_param : option string
}.

(** What the program does to the outside world, in order. *)
Inductive Event :=
| HttpGet (params : Params)
| SaveUserTaste (data : UserTaste)
| StError (msg : string)
| StWarning (msg : string)
| StSuccess (msg : string)
| Printed (msg : string).

Definition cuisines_text (x : ApiItem) : string :=
  let joined := PyStr.join ", " (get_default (x_cuisines x) []) in
  if PyStr.truthy joined then joined else "Not specified".

(** [google_search_link] *)
Definition google_search_link (recipe_name : string) : string :=
  let query := (PyStr.replace " " "+" recipe_name ++ "+recipe")%string in
  ("https://www.google.com/search?q=" ++ query)%string.

(** [str(v)] inside an f-string, for a title. *)
Definition show_title (t : option string) : string := get_default t "None".

(** [x["title"] == y["title"]] *)
Definition title_eqb (a b : option string) : bool :=
  match a, b with
  | Some s, Some t => String.eqb s t
  | None, None => true
  | _, _ => false
  end.

(** The recipe dict that the loop of [get_recipes_from_api] appends for an
    object [x]. *)
Definition api_recipe (x : ApiItem) : Recipe :=
  mkRecipe (get_default (x_title x) None)
           (get_default (x_readyInMinutes x) (MStr "N/A"))
           (get_default (x_servings x) (MStr "N/A"))
           (get_default (x_sourceUrl x) "#")
           (get_default (x_image x) DEFAULT_IMAGE)
           (cuisines_text x)
           "N/A"
           (Some []).

(** The loop [for x in data["results"]: recipes.append({...})]: the
    recipes in order, or the exception of the first element that raises. *)
Fixpoint build_recipes (results : list ApiElement) : string + list Recipe :=
  match results with
  | [] => inr []
  | BadItem e :: _ => inl e
  | GoodItem x :: rest =>
      match build_recipes rest with
      | inr recipes => inr (api_recipe x :: recipes)
      | inl e => inl e
      end
  end.

Section Gateway.

(** The remote service: the answer to each request. *)
Variable requests_get : Params -> HttpResult.

(** [get_recipes_from_api]: the recipes and what happened on the way.  An
    exception raised anywhere in the body, also while the loop builds the
    recipes, is caught, reported with [st.error], and gives no recipes. *)
Definition get_recipes_from_api (ingredients diet : string)
  : list Recipe * list Event :=
  let params :=
    mkParams (Some ingredients) None 10
             (if String.eqb diet "None" then None else Some (PyStr.lower diet)) in
  match requests_get params with
  | Raised e => ([], [HttpGet params; StError ("API Error: " ++ e)%string])
  | Responded status_code body =>
      if negb (status_code =? 200)%Z then ([], [HttpGet params])
      else
        match body with
        | NotJson e => ([], [HttpGet params; StError ("API Error: " ++ e)%string])
        | Data None => ([], [HttpGet params])
        | Data (Some []) => ([], [HttpGet params])
        | Data (Some results) =>
            match build_recipes results with
            | inr recipes => (recipes, [HttpGet params])
            | inl e => ([], [HttpGet params; StError ("API Error: " ++ e)%string])
            end
        end
  end.

(** [enrich_offline_recipe]; an exception is caught, printed, and gives
    [None]. *)
Definition enrich_offline_recipe (recipe_name : string)
  : option Recipe * list Event :=
  let params := mkParams None (Some recipe_name) 1 None in
  match requests_get params with
  | Raised e => (None, [HttpGet params; Printed ("Offline enrichment error: " ++ e)%string])
  | Responded status_code body =>
      if negb (status_code =? 200)%Z then (None, [HttpGet params])
      else
        match body with
        | NotJson e =>
            (None, [HttpGet params; Printed ("Offline enrichment error: " ++ e)%string])
        | Data None => (None, [HttpGet params])
        | Data (Some []) => (None, [HttpGet params])
        | Data (Some (BadItem e :: _)) =>
            (None, [HttpGet params; Printed ("Offline enrichment error: " ++ e)%string])
        | Data (Some (GoodItem x :: _)) =>
            (Some (mkRecipe (get_default (x_title x) (Some recipe_name))
                            (get_default (x_readyInMinutes x) (MStr "N/A"))
                            (get_default (x_servings x) (MStr "N/A"))
                            (get_default (x_sourceUrl x) "#")
                            (get_default (x_image x) DEFAULT_IMAGE)
                            (cuisines_text x)
                            "N/A"
                            (Some [])),
             [HttpGet params])
        end
  end.

End Gateway.

(** ** Session state and the handlers of tab 1 *)

Inductive Mode := ModeApi | ModeOffline.

Inductive Results :=
| ApiRecipes (recipes : list Recipe)
| OfflineFrame (df : list ResultRow).

(** [st.session_state] *)
Record SessionState := mkSession {
  user_taste : UserTaste;
  search_results : option Results;
  search_mode : option Mode
}.

Section Handlers.

Variable partial_ratio : string -> string -> Q.
Variable recipes_df : list Row.
Variable requests_get : Params -> HttpResult.

(** The body of [if st.button("Find Recipes")]: the new session state and
    the events, [None] if an exception escaped. *)
Definition find_recipes (ingredients diet : string) (st : SessionState)
  : option (SessionState * list Event) :=
  if PyStr.truthy ingredients then
    let '(api_results, events) := get_recipes_from_api requests_get ingredients diet in
    match api_results with
    | _ :: _ =>
        Some (mkSession (user_taste st) (Some (ApiRecipes api_results)) (Some ModeApi),
              events)
    | [] =>
        match search_offline_recipes partial_ratio recipes_df ingredients (user_taste st) with
        | Some offline =>
            Some (mkSession (user_taste st) (Some (OfflineFrame offline)) (Some ModeOffline),
                  events)
        | None => None
        end
    end
  else Some (st, [StWarning "Please enter some ingredients."]).

(** [any(x["title"] == t for x in user_taste["liked"])] *)
Definition liked_has_title (t : option string) (st : SessionState) : bool :=
  existsb (fun x => title_eqb (title x) t) (liked (user_taste st)).

(** [user_taste["liked"].append(r)] followed by [save_user_taste] and the
    success message. *)
Definition append_and_save (entry : Recipe) (shown : option string) (st : SessionState)
  : SessionState * list Event :=
  let data := mkTaste (liked (user_taste st) ++ [entry]) in
  (mkSession data (search_results st) (search_mode st),
   [SaveUserTaste data;
    StSuccess ("Saved " ++ show_title shown ++ " to liked recipes!")%string]).

(** The like button under a recipe [r] of the API results. *)
Definition like_api (r : Recipe) (st : SessionState) : SessionState * list Event :=
  if negb (liked_has_title (title r) st) then append_and_save r (title r) st
  else (st, []).

(** The like button under a row of the offline results. *)
Definition like_offline (row : ResultRow) (st : SessionState)
  : SessionState * list Event :=
  let img := ("https://source.unsplash.com/200x140/?food,"
              ++ PyStr.replace " " "%20" (res_title row))%string in
  let g_link := google_search_link (res_title row) in
  if negb (liked_has_title (Some (res_title row)) st) then
    let '(enriched, events) := enrich_offline_recipe requests_get (res_title row) in
    let entry :=
      match enriched with
      | Some enriched => enriched
      | None => mkRecipe (Some (res_title row)) (MStr "N/A") (MStr "N/A") g_link img
                         "Not specified" "N/A" (Some (res_ingredients row))
      end in
    let '(st', saved) := append_and_save entry (Some (res_title row)) st in
    (st', events ++ saved)
  else (st, []).

End Handlers.

(** ** The scoring formula in the words of the specification *)

Module Spec.

(** The count of the [x] in [l] such that [P x]. *)
Definition count_such_that {A} (P : A -> Prop)
           (P_dec : forall x, {P x} + {~ P x}) (l : list A) : nat :=
  List.length (filter (fun x => if P_dec x then true else false) l).

Definition Qlt_dec (x y : Q) : {(x < y)%Q} + {~ (x < y)%Q} :=
  match Qlt_le_dec x y with
  | left H => left H
  | right H => right (Qle_not_lt _ _ H)
  end.

(** exact: the count of q in Q (here [Qtok]) such that q is a member of R_norm. *)
Definition exact (Qtok R_norm : list string) : nat :=
  count_such_that (fun q => In q R_norm) (fun q => in_dec string_dec q R_norm) Qtok.

(** partial: the count of q in Q such that some r in R_norm has
    fuzzy similarity strictly greater than 75 with q. *)
Definition partial (similarity : string -> string -> Q) (Qtok R_norm : list string) : nat :=
  count_such_that
    (fun q => Exists (fun r => (75 < similarity q r)%Q) R_norm)
    (fun q => Exists_dec _ R_norm (fun r => Qlt_dec 75 (similarity q r))) Qtok.

(** tasteBonus: the count of ingredients in R_norm that are also in
    likedIngredients. *)
Definition tasteBonus (R_norm likedIngredients : list string) : nat :=
  count_such_that (fun r => In r likedIngredients)
                  (fun r => in_dec string_dec r likedIngredients) R_norm.

(** score = 2*exact + 1*partial + 0.5*tasteBonus *)
Definition score (similarity : string -> string -> Q)
           (Qtok R_norm likedIngredients : list string) : Q :=
  (2 * inject_Z (Z.of_nat (exact Qtok R_norm))
   + 1 * inject_Z (Z.of_nat (partial similarity Qtok R_norm))
   + (1 # 2) * inject_Z (Z.of_nat (tasteBonus R_norm likedIngredients)))%Q.

End Spec.

(** What one pass of the loop body appends. *)
Definition appended (partial_ratio : string -> string -> Q)
           (ingredients liked_ings : list string) (p : nat * Row)
  : list (nat * Q) :=
  let score := row_score partial_ratio ingredients liked_ings (snd p) in
  if Qlt_bool 0 score then [(fst p, score)] else [].

(** The query tokens [Q] of a raw query, step 1 of the algorithm. *)
Definition query_ingredients (user_input : string) : list string :=
  map normalize_ingredient (PyStr.split "," user_input).

(** Two rows of the ranking: the first goes before the second when its
    score is greater, or the scores are equal and its label is smaller. *)
Definition ranks_before (a b : nat * Q) : Prop :=
  (snd b < snd a)%Q \/ ((snd a == snd b)%Q /\ fst a < fst b).

(** The label and the score of a row of the returned frame. *)
Definition label_and_score (r : ResultRow) : nat * Q := (res_idx r, match_score r).

(** The row of [recipes_df] that a row of the returned frame shows. *)
Definition shows_row (recipes_df : list Row) (r : ResultRow) : Prop :=
  nth_error recipes_df (res_idx r) = Some (mkRow (res_title r) (res_ingredients r)).

(** ** Worked inputs *)

(** The taste memory of a first run: [{"liked": []}]. *)
Definition empty_taste : UserTaste := mkTaste [].

Definition chole_corpus : list Row :=
  [mkRow "Chole Masala" ["chole"; "onion"; "tomato"]].

Definition imli_corpus : list Row := [mkRow "Imli Chutney" ["imli"]].

(** A taste memory with one liked recipe that lists tamarind. *)
Definition tamarind_taste : UserTaste :=
  mkTaste [mkRecipe (Some "Tamarind Rice") (MStr "N/A") (MStr "N/A")
                    (google_search_link "Tamarind Rice") DEFAULT_IMAGE
                    "Not specified" "N/A" (Some ["tamarind"; "rice"])].

(** The row of the offline results for "Chole Masala", and a session that
    shows it with nothing liked yet. *)
Definition chole_row : ResultRow :=
  mkResult 0 "Chole Masala" ["chole"; "onion"; "tomato"] 3.

Definition chole_session : SessionState :=
  mkSession empty_taste (Some (OfflineFrame [chole_row])) (Some ModeOffline).

(** A remote service whose best match for any query is a recipe titled
    "Chana Masala". *)
Definition chana_service (params : Params) : HttpResult :=
  Responded 200
    (Data (Some [GoodItem (mkItem (Some (Some "Chana Masala")) (Some (MInt 45))
                                  (Some (MInt 4))
                                  (Some "https://example.com/chana-masala") None
                                  (Some ["Indian"]))])).

(** A remote service that is down. *)
Definition no_service (params : Params) : HttpResult := Raised "connection refused".

(** ** Taste memory file and tab 2 *)

(** [load_user_taste]: the content of [taste_memory.json], which is
    [None] when the file does not exist and else holds what
    [save_user_taste] dumped there. *)
Definition load_user_taste (taste_file : option UserTaste) : UserTaste :=
  match taste_file with
  | Some data => data
  | None => mkTaste []
  end.

(** The taste file once the events have happened: each [save_user_taste]
    overwrites it. *)
Definition taste_file_after (events : list Event) (taste_file : option UserTaste)
  : option UserTaste :=
  fold_left (fun file ev => match ev with SaveUserTaste data => Some data | _ => file end)
            events taste_file.

(** The session state of a fresh session: the taste memory is loaded and
    there are no search results yet. *)
Definition init_session (taste_file : option UserTaste) : SessionState :=
  mkSession (load_user_taste taste_file) None None.

(** The remove button under a liked recipe [r] of tab 2; the rerun that
    follows only runs the script again on the new state. *)
Definition remove_liked (r : Recipe) (st : SessionState) : SessionState * list Event :=
  let data :=
    mkTaste (filter (fun x => negb (title_eqb (title x) (title r)))
                    (liked (user_taste st))) in
  (mkSession data (search_results st) (search_mode st), [SaveUserTaste data]).

(** ** Vocabulary of the further properties *)

(** How often a character occurs in a string, and whether it does. *)
Fixpoint count_char (c : ascii) (s : string) : nat :=
  match s with
  | EmptyString => 0
  | String d s' => (if Ascii.eqb d c then 1 else 0) + count_char c s'
  end.



(** The data written by the [save_user_taste] calls among the events, and
    the requests sent. *)
Definition saves (events : list Event) : list UserTaste :=
  flat_map (fun ev => match ev with SaveUserTaste data => [data] | _ => [] end) events.

Definition requests (events : list Event) : list Params :=
  flat_map (fun ev => match ev with HttpGet params => [params] | _ => [] end) events.

(** No two liked recipes share a title. *)
Definition titles_unique (data : UserTaste) : Prop := NoDup (map title (liked data)).

(** The search mode names the kind of results the session holds, and API
    results, when held, are not empty. *)
Definition consistent (st : SessionState) : Prop :=
  match search_results st, search_mode st with
  | None, None => True
  | Some (ApiRecipes recipes), Some ModeApi => recipes <> []
  | Some (OfflineFrame _), Some ModeOffline => True
  | _, _ => False
  end.

(** The taste file holds the taste memory of the session. *)
Definition in_sync (taste_file : option UserTaste) (st : SessionState) : Prop :=
  load_user_taste taste_file = user_taste st.

(** The corpus rows that score above 0 for a query and a taste memory. *)
Definition positive_rows (partial_ratio : string -> string -> Q) (recipes_df : list Row)
           (user_input : string) (user_taste : UserTaste) : list Row :=
  filter (fun row =>
            Qlt_bool 0 (row_score partial_ratio (query_ingredients user_input)
                                  (liked_ingredients user_taste) row))
         recipes_df.

(** Two liked recipes with ingredients, for worked inputs. *)
Definition dal_recipe : Recipe :=
  mkRecipe (Some "Dal Tadka") (MStr "N/A") (MStr "N/A")
           (google_search_link "Dal Tadka") DEFAULT_IMAGE
           "Not specified" "N/A" (Some ["dal"; "jeera"; "ghee"]).

Definition raita_recipe : Recipe :=
  mkRecipe (Some "Raita") (MInt 10) (MInt 2) "#" DEFAULT_IMAGE
           "Indian" "N/A" (Some ["Curd"; "onion"]).

Definition pantry_corpus : list Row :=
  [ mkRow "Chole Masala" ["chole"; "onion"; "tomato"];
    mkRow "Plain Rice" ["rice"; "water"];
    mkRow "Dal Fry" ["dal"; "onion"; "ghee"; "jeera"];
    mkRow "Empty Plate" [] ].

(** ** Facts about strings *)

Module PyStrFacts.
Import PyStr.

Lemma lower_char_idem c : lower_char (lower_char c) = lower_char c.
Proof. destruct c as [[] [] [] [] [] [] [] []]; reflexivity. Qed.

Lemma is_space_lower_char c : is_space (lower_char c) = is_space c.
Proof. destruct c as [[] [] [] [] [] [] [] []]; reflexivity. Qed.

Lemma lower_idem s : lower (lower s) = lower s.
Proof. induction s as [|c s IH]; simpl; [reflexivity|]. now rewrite lower_char_idem, IH. Qed.

Lemma lower_lstrip s : lower (lstrip s) = lstrip (lower s).
Proof.
  induction s as [|c s IH]; simpl; [reflexivity|].
  rewrite is_space_lower_char. destruct (is_space c); [exact IH | reflexivity].
Qed.

Lemma lower_rstrip s : lower (rstrip s) = rstrip (lower s).
Proof.
  induction s as [|c s IH]; simpl; [reflexivity|].
  rewrite <- IH, is_space_lower_char.
  destruct (rstrip s); simpl; [destruct (is_space c)|]; reflexivity.
Qed.

Lemma lower_strip s : lower (strip s) = strip (lower s).
Proof. unfold strip. now rewrite lower_rstrip, lower_lstrip. Qed.

Lemma rstrip_idem s : rstrip (rstrip s) = rstrip s.
Proof.
  induction s as [|c s IH]; simpl; [reflexivity|].
  destruct (rstrip s) as [|d r] eqn:E.
  - destruct (is_space c) eqn:Ec; simpl; [reflexivity | now rewrite Ec].
  - cbn [rstrip]. fold rstrip. cbn [rstrip] in IH. fold rstrip in IH.
    now rewrite IH.
Qed.

(** A string without leading white space keeps its first character under
    [rstrip], so [lstrip] leaves the result alone. *)
Lemma lstrip_rstrip_lstrip s : lstrip (rstrip (lstrip s)) = rstrip (lstrip s).
Proof.
  induction s as [|c s IH]; simpl; [reflexivity|].
  destruct (is_space c) eqn:Ec; [exact IH|].
  cbn [rstrip]. destruct (rstrip s); rewrite ?Ec; cbn [lstrip]; now rewrite Ec.
Qed.

Lemma strip_idem s : strip (strip s) = strip s.
Proof.
  unfold strip. rewrite lstrip_rstrip_lstrip. apply rstrip_idem.
Qed.

End PyStrFacts.

(** ** The normaliser *)

Lemma dict_get_in d k v : dict_get d k = Some v -> In v (map snd d).
Proof.
  induction d as [|[k' v'] d IH]; simpl; [discriminate|].
  destruct (String.eqb k k'); [injection 1; auto | auto].
Qed.

(** Every canonical name of the table is a fixed point of the normaliser:
    none is itself a key, and each is already lower-case and stripped. *)
Lemma canonical_fixed :
  Forall (fun v => normalize_ingredient v = v) (map snd ingredient_synonyms).
Proof. repeat constructor. Qed.

(** C7: ingredient normalisation is idempotent: normalising an already
    normalised ingredient gives it back, for every input string. *)
Theorem normalize_ingredient_idempotent (x : string) :
  normalize_ingredient (normalize_ingredient x) = normalize_ingredient x.
Proof.
  unfold normalize_ingredient at 2 3.
  destruct (dict_get ingredient_synonyms (PyStr.strip (PyStr.lower x))) as [v|] eqn:E.
  - apply dict_get_in in E. revert v E. apply Forall_forall, canonical_fixed.
  - unfold normalize_ingredient.
    rewrite PyStrFacts.lower_strip, PyStrFacts.lower_idem, PyStrFacts.strip_idem.
    now rewrite E.
Qed.

(** ** Counting *)

Lemma py_sum_ones {A} (l : list A) :
  py_sum (map (fun _ => 1%Z) l) = Z.of_nat (List.length l).
Proof.
  unfold py_sum.
  assert (G : forall acc, fold_left Z.add (map (fun _ : A => 1%Z) l) acc
                          = (acc + Z.of_nat (List.length l))%Z).
  { induction l as [|x l IH]; intros acc; cbn [map fold_left List.length].
    - lia.
    - rewrite IH. lia. }
  rewrite G. lia.
Qed.

Lemma sum_1_for_if_length {A} (cond : A -> bool) (l : list A) :
  sum_1_for_if cond l = Z.of_nat (List.length (filter cond l)).
Proof. apply py_sum_ones. Qed.

Lemma sum_1_for_if_nil {A} (cond : A -> bool) : sum_1_for_if cond [] = 0%Z.
Proof. reflexivity. Qed.

Lemma sum_1_for_if_nonneg {A} (cond : A -> bool) (l : list A) :
  (0 <= sum_1_for_if cond l)%Z.
Proof. rewrite sum_1_for_if_length. lia. Qed.

Lemma filter_length_le {A} (c1 c2 : A -> bool) (l : list A) :
  (forall x, In x l -> c1 x = true -> c2 x = true) ->
  List.length (filter c1 l) <= List.length (filter c2 l).
Proof.
  induction l as [|x l IH]; intros H; cbn [filter]; [lia|].
  assert (IH' := IH (fun y Hy => H y (or_intror Hy))).
  destruct (c1 x) eqn:E1.
  - rewrite (H x (or_introl eq_refl) E1). cbn [List.length]. lia.
  - destruct (c2 x); cbn [List.length]; lia.
Qed.

Lemma sum_1_for_if_le {A} (c1 c2 : A -> bool) (l : list A) :
  (forall x, In x l -> c1 x = true -> c2 x = true) ->
  (sum_1_for_if c1 l <= sum_1_for_if c2 l)%Z.
Proof.
  intros H. rewrite !sum_1_for_if_length.
  apply Nat2Z.inj_le, filter_length_le, H.
Qed.

Lemma elem_In x l : PyStr.elem x l = true <-> In x l.
Proof.
  unfold PyStr.elem. rewrite existsb_exists. split.
  - intros (y & Hy & E). apply String.eqb_eq in E. now subst.
  - intros H. exists x. split; [exact H | apply String.eqb_refl].
Qed.

Lemma Qlt_bool_iff x y : Qlt_bool x y = true <-> (x < y)%Q.
Proof.
  unfold Qlt_bool. rewrite negb_true_iff, <- not_true_iff_false, Qle_bool_iff.
  split; [apply Qnot_le_lt | apply Qlt_not_le].
Qed.

Lemma Qlt_bool_false x y : Qlt_bool x y = false <-> (y <= x)%Q.
Proof.
  unfold Qlt_bool. rewrite negb_false_iff. apply Qle_bool_iff.
Qed.

(** ** The loop over the corpus *)

Section SearchFacts.

Variable partial_ratio : string -> string -> Q.
Variable recipes_df : list Row.

Lemma scored_results_flat_map ingredients liked_ings :
  scored_results partial_ratio recipes_df ingredients liked_ings
  = flat_map (appended partial_ratio ingredients liked_ings) (iterrows recipes_df).
Proof.
  unfold scored_results.
  generalize (iterrows recipes_df) as rows.
  assert (G : forall rows acc,
             fold_left
               (fun results '(idx, row) =>
                  let score := row_score partial_ratio ingredients liked_ings row in
                  if Qlt_bool 0 score then results ++ [(idx, score)] else results)
               rows acc
             = acc ++ flat_map (appended partial_ratio ingredients liked_ings) rows).
  { induction rows as [|[idx row] rows IH]; intros acc; cbn [fold_left flat_map].
    - now rewrite app_nil_r.
    - rewrite IH. unfold appended at 2. cbn [fst snd].
      destruct (Qlt_bool 0 (row_score partial_ratio ingredients liked_ings row)).
      + now rewrite <- app_assoc.
      + reflexivity. }
  intros rows. apply (G rows []).
Qed.

Lemma in_appended ingredients liked_ings p q :
  In q (appended partial_ratio ingredients liked_ings p) ->
  fst q = fst p
  /\ snd q = row_score partial_ratio ingredients liked_ings (snd p)
  /\ (0 < snd q)%Q.
Proof.
  unfold appended.
  destruct (Qlt_bool 0 _) eqn:E; [|intros []].
  intros [<-|[]]. cbn [fst snd]. now apply Qlt_bool_iff in E.
Qed.

Lemma in_combine_seq {A} (l : list A) k i x :
  In (i, x) (combine (seq k (List.length l)) l) ->
  k <= i /\ nth_error l (i - k) = Some x.
Proof.
  revert k. induction l as [|y l IH]; intros k; cbn [List.length seq combine]; [intros []|].
  intros [E|H].
  - injection E as <- <-. rewrite Nat.sub_diag. split; [lia | reflexivity].
  - apply IH in H as [Hk Hn]. split; [lia|].
    replace (i - k) with (S (i - S k)) by lia. exact Hn.
Qed.

Lemma in_iterrows i row :
  In (i, row) (iterrows recipes_df) -> nth_error recipes_df i = Some row.
Proof.
  intros H. apply in_combine_seq in H as [_ H]. now rewrite Nat.sub_0_r in H.
Qed.

(** An entry of [results] carries the label of a row of the corpus, that
    row's score, and the score is positive. *)
Lemma in_scored_results ingredients liked_ings i s :
  In (i, s) (scored_results partial_ratio recipes_df ingredients liked_ings) ->
  exists row, nth_error recipes_df i = Some row
              /\ s = row_score partial_ratio ingredients liked_ings row
              /\ (0 < s)%Q.
Proof.
  rewrite scored_results_flat_map, in_flat_map.
  intros ([j row] & Hin & Hq). apply in_appended in Hq as (E1 & E2 & E3).
  cbn [fst snd] in *. subst j. exists row. auto using in_iterrows.
Qed.

(** [results] is in corpus order: the labels increase strictly. *)
Lemma scored_results_increasing ingredients liked_ings :
  StronglySorted (fun a b => fst a < fst b)
                 (scored_results partial_ratio recipes_df ingredients liked_ings).
Proof.
  rewrite scored_results_flat_map. unfold iterrows.
  generalize 0 as k. induction recipes_df as [|x l IH]; intros k.
  - constructor.
  - cbn [List.length seq combine flat_map].
    assert (T : Forall (fun b : nat * Q => k < fst b)
                  (flat_map (appended partial_ratio ingredients liked_ings)
                            (combine (seq (S k) (List.length l)) l))).
    { apply Forall_forall. intros q Hq. apply in_flat_map in Hq as ([j r] & Hj & Hq).
      apply in_appended in Hq as (E & _). apply in_combine_seq in Hj as [Hj _].
      cbn [fst] in E. lia. }
    unfold appended at 1. cbn [fst snd].
    destruct (Qlt_bool 0 _); cbn [app]; [constructor|]; auto.
Qed.

(** ** Sorting *)

Lemma insert_desc_perm {A} (key : A -> Q) x l :
  Permutation (insert_desc key x l) (x :: l).
Proof.
  induction l as [|y l IH]; cbn [insert_desc]; [reflexivity|].
  destruct (Qlt_bool (key x) (key y)); [|reflexivity].
  rewrite IH. apply perm_swap.
Qed.

Lemma sorted_reverse_perm {A} (key : A -> Q) l :
  Permutation (sorted_reverse key l) l.
Proof.
  induction l as [|x l IH]; cbn [sorted_reverse]; [reflexivity|].
  rewrite insert_desc_perm. now constructor.
Qed.

(** Inserting a row whose label is smaller than every label of a ranked
    list keeps the list ranked. *)
Lemma insert_desc_ranked (x : nat * Q) l :
  StronglySorted ranks_before l ->
  Forall (fun y => fst x < fst y) l ->
  StronglySorted ranks_before (insert_desc snd x l).
Proof.
  induction 1 as [|y l Hl IH Hy]; intros Hx; cbn [insert_desc].
  - repeat constructor.
  - inversion Hx as [|? ? Hxy Hxl]; subst.
    destruct (Qlt_bool (snd x) (snd y)) eqn:E.
    + apply Qlt_bool_iff in E. constructor; [auto|].
      rewrite insert_desc_perm. constructor; [now left | exact Hy].
    + apply Qlt_bool_false in E. constructor; [now constructor|].
      assert (Hy' : ranks_before x y).
      { destruct (Qlt_le_dec (snd y) (snd x)) as [L|L]; [now left|].
        right. split; [now apply Qle_antisym | exact Hxy]. }
      constructor; [exact Hy'|].
      rewrite Forall_forall in *. intros z Hz.
      specialize (Hy z Hz). specialize (Hxl z Hz).
      assert (Hzx : (snd z <= snd x)%Q).
      { apply Qle_trans with (snd y); [|exact E].
        destruct Hy as [L|[L _]]; [now apply Qlt_le_weak | rewrite L; apply Qle_refl]. }
      destruct (Qlt_le_dec (snd z) (snd x)) as [L|L]; [now left|].
      right. split; [now apply Qle_antisym | exact Hxl].
Qed.

(** Sorting a list that is in corpus order ranks it: scores do not
    increase, and rows of equal score stay in corpus order. *)
Lemma sorted_reverse_ranked (l : list (nat * Q)) :
  StronglySorted (fun a b => fst a < fst b) l ->
  StronglySorted ranks_before (sorted_reverse snd l).
Proof.
  induction 1 as [|x l Hl IH Hx]; cbn [sorted_reverse]; [constructor|].
  apply insert_desc_ranked; [exact IH|].
  now rewrite sorted_reverse_perm.
Qed.

Lemma StronglySorted_firstn {A} (R : A -> A -> Prop) n l :
  StronglySorted R l -> StronglySorted R (firstn n l).
Proof.
  intros H. revert n. induction H as [|x l Hl IH Hx]; intros [|n]; cbn [firstn];
    try constructor; auto.
  rewrite Forall_forall in *. intros y Hy. apply Hx.
  rewrite <- (firstn_skipn n l). apply in_or_app. now left.
Qed.

Lemma In_firstn {A} n (l : list A) x : In x (firstn n l) -> In x l.
Proof.
  intros H. rewrite <- (firstn_skipn n l). apply in_or_app. now left.
Qed.

Lemma StronglySorted_nth_error {A} (R : A -> A -> Prop) l i j a b :
  StronglySorted R l -> i < j ->
  nth_error l i = Some a -> nth_error l j = Some b -> R a b.
Proof.
  intros H. revert i j. induction H as [|x l Hl IH Hx]; intros i j Hij Ha Hb.
  - destruct i; discriminate.
  - destruct j as [|j]; [lia|]. cbn [nth_error] in Hb.
    destruct i as [|i]; cbn [nth_error] in Ha.
    + injection Ha as <-. rewrite Forall_forall in Hx. apply Hx.
      eapply nth_error_In, Hb.
    + apply (IH i j); [lia | assumption | assumption].
Qed.

Lemma StronglySorted_map_inv {A B} (f : A -> B) (R : B -> B -> Prop) l :
  StronglySorted R (map f l) -> StronglySorted (fun a b => R (f a) (f b)) l.
Proof.
  induction l as [|x l IH]; cbn [map]; intros H; [constructor|].
  inversion H as [|? ? Hl Hx]; subst. constructor; [auto|].
  rewrite Forall_forall in *. intros y Hy. apply Hx. now apply in_map.
Qed.

(** ** The returned frame *)

Lemma in_top_results user_input user_taste p :
  In p (top_results partial_ratio recipes_df user_input user_taste) ->
  In p (scored_results partial_ratio recipes_df (query_ingredients user_input)
                       (liked_ingredients user_taste)).
Proof.
  unfold top_results. intros H. apply In_firstn in H.
  eapply Permutation_in; [apply sorted_reverse_perm | exact H].
Qed.

Lemma top_results_ranked user_input user_taste :
  StronglySorted ranks_before (top_results partial_ratio recipes_df user_input user_taste).
Proof.
  apply StronglySorted_firstn, sorted_reverse_ranked, scored_results_increasing.
Qed.

Lemma top_results_length user_input user_taste :
  List.length (top_results partial_ratio recipes_df user_input user_taste) <= 20.
Proof. apply firstn_le_length. Qed.

(** [.loc] finds every label it is given when the labels are labels of the
    frame, and the returned rows are those rows with the given scores. *)
Lemma loc_frame (top : list (nat * Q)) :
  Forall (fun p => exists row, nth_error recipes_df (fst p) = Some row) top ->
  exists out,
    match loc recipes_df (map fst top) with
    | Some df =>
        Some (map (fun '((i, row), s) => mkResult i (row_title row) (row_ingredients row) s)
                  (combine df (map snd top)))
    | None => None
    end = Some out
    /\ map label_and_score out = top
    /\ Forall (shows_row recipes_df) out.
Proof.
  induction 1 as [|[i s] top [row Hrow] Htop (out & E & Hmap & Hshow)]; cbn [map loc].
  - exists []. repeat split; constructor.
  - cbn [fst snd] in *. rewrite Hrow.
    destruct (loc recipes_df (map fst top)) as [df|]; [|discriminate].
    injection E as <-. eexists. split; [reflexivity|].
    cbn [combine map]. split.
    + now rewrite Hmap.
    + constructor; [|exact Hshow].
      unfold shows_row. cbn [res_idx res_title res_ingredients]. now destruct row.
Qed.

(** [search_offline_recipes] returns: [.loc] never raises there, and the
    frame lists the rows of [top], each with its label and score. *)
Lemma search_offline_recipes_frame user_input user_taste :
  exists out,
    search_offline_recipes partial_ratio recipes_df user_input user_taste = Some out
    /\ map label_and_score out = top_results partial_ratio recipes_df user_input user_taste
    /\ Forall (shows_row recipes_df) out.
Proof.
  destruct (loc_frame (top_results partial_ratio recipes_df user_input user_taste))
    as (out & E & Hmap & Hshow).
  { apply Forall_forall. intros [i s] H. apply in_top_results, in_scored_results in H.
    destruct H as (row & Hrow & _). now exists row. }
  unfold search_offline_recipes.
  fold (query_ingredients user_input).
  unfold top_results in *. fold (query_ingredients user_input) in *.
  destruct (scored_results partial_ratio recipes_df (query_ingredients user_input)
                           (liked_ingredients user_taste)) as [|p results] eqn:R.
  - exists []. repeat split; constructor.
  - exists out. auto.
Qed.

(** ** The score *)

Lemma exact_matches_spec Qtok R_norm :
  exact_matches Qtok R_norm = Z.of_nat (Spec.exact Qtok R_norm).
Proof.
  unfold exact_matches, Spec.exact, Spec.count_such_that.
  rewrite sum_1_for_if_length. do 2 f_equal. apply filter_ext. intros q.
  destruct (in_dec string_dec q R_norm) as [H|H].
  - now apply elem_In.
  - apply not_true_is_false. now rewrite elem_In.
Qed.

Lemma taste_bonus_spec R_norm likedIngredients :
  taste_bonus R_norm likedIngredients = Z.of_nat (Spec.tasteBonus R_norm likedIngredients).
Proof. apply exact_matches_spec. Qed.

Lemma partial_matches_spec Qtok R_norm :
  partial_matches partial_ratio Qtok R_norm
  = Z.of_nat (Spec.partial partial_ratio Qtok R_norm).
Proof.
  unfold partial_matches, Spec.partial, Spec.count_such_that.
  rewrite sum_1_for_if_length. do 2 f_equal. apply filter_ext. intros q.
  destruct (Exists_dec _ R_norm _) as [H|H].
  - apply existsb_exists. apply Exists_exists in H as (r & Hr & L).
    exists r. split; [exact Hr | now apply Qlt_bool_iff].
  - apply not_true_is_false. intros E. apply H.
    apply existsb_exists in E as (r & Hr & L). apply Exists_exists.
    exists r. split; [exact Hr | now apply Qlt_bool_iff].
Qed.

Lemma row_score_spec Qtok likedIngredients row :
  (row_score partial_ratio Qtok likedIngredients row
   == Spec.score partial_ratio Qtok (map normalize_ingredient (row_ingredients row))
                 likedIngredients)%Q.
Proof.
  unfold row_score, Spec.score.
  rewrite exact_matches_spec, partial_matches_spec, taste_bonus_spec. ring.
Qed.

(** C2: the score of the offline ranking is 2*exact + 1*partial +
    0.5*tasteBonus with exact, partial and tasteBonus the counts the
    specification describes: this is the score the loop computes for every
    row of the corpus, and the Match Score of every row of the returned
    frame is that score of the corpus row it shows. *)
Theorem score_is_weighted_sum (user_input : string) (user_taste : UserTaste) :
  (forall row,
      (row_score partial_ratio (query_ingredients user_input)
                 (liked_ingredients user_taste) row
       == Spec.score partial_ratio (query_ingredients user_input)
                     (map normalize_ingredient (row_ingredients row))
                     (liked_ingredients user_taste))%Q)
  /\ exists out,
      search_offline_recipes partial_ratio recipes_df user_input user_taste = Some out
      /\ Forall (fun r =>
                   shows_row recipes_df r
                   /\ (match_score r
                       == Spec.score partial_ratio (query_ingredients user_input)
                                     (map normalize_ingredient (res_ingredients r))
                                     (liked_ingredients user_taste))%Q) out.
Proof.
  split; [intros row; apply row_score_spec|].
  destruct (search_offline_recipes_frame user_input user_taste) as (out & E & Hmap & Hshow).
  exists out. split; [exact E|].
  rewrite Forall_forall in *. intros r Hr. split; [auto|].
  assert (Hin : In (label_and_score r)
                   (top_results partial_ratio recipes_df user_input user_taste)).
  { rewrite <- Hmap. now apply in_map. }
  apply in_top_results, in_scored_results in Hin as (row & Hrow & Hs & _).
  specialize (Hshow r Hr). unfold shows_row in Hshow. rewrite Hshow in Hrow.
  injection Hrow as <-. rewrite Hs. apply row_score_spec.
Qed.

(** C3: the returned frame has at most 20 rows, its scores do not increase
    from one row to the next, and two rows with equal scores appear in the
    order of the corpus (the earlier row shows the smaller corpus label). *)
Theorem ranking_top20_sorted_stable (user_input : string) (user_taste : UserTaste) :
  exists out,
    search_offline_recipes partial_ratio recipes_df user_input user_taste = Some out
    /\ List.length out <= 20
    /\ StronglySorted (fun a b => (match_score b <= match_score a)%Q) out
    /\ Forall (shows_row recipes_df) out
    /\ forall i j a b,
        i < j -> nth_error out i = Some a -> nth_error out j = Some b ->
        (match_score a == match_score b)%Q -> res_idx a < res_idx b.
Proof.
  destruct (search_offline_recipes_frame user_input user_taste) as (out & E & Hmap & Hshow).
  assert (Hr : StronglySorted (fun a b => ranks_before (label_and_score a) (label_and_score b))
                              out).
  { apply StronglySorted_map_inv. rewrite Hmap. apply top_results_ranked. }
  exists out. split; [exact E|]. split; [|split; [|split; [exact Hshow|]]].
  - rewrite <- (length_map label_and_score), Hmap. apply top_results_length.
  - clear - Hr. induction Hr as [|x l Hl IH Hx]; constructor; [exact IH|].
    eapply Forall_impl; [|exact Hx]. cbn beta. intros y [L|[L _]]; cbn [label_and_score snd] in L.
    + now apply Qlt_le_weak.
    + rewrite L. apply Qle_refl.
  - intros i j a b Hij Ha Hb Heq.
    destruct (StronglySorted_nth_error _ _ _ _ _ _ Hr Hij Ha Hb) as [L|[_ L]];
      cbn [label_and_score fst snd] in L; [|exact L].
    rewrite Heq in L. now apply Qlt_irrefl in L.
Qed.

(** C4: a corpus row whose score is 0 is not shown by any row of the
    returned frame, and a row with an empty ingredient list has score 0,
    so it is never shown. *)
Theorem zero_score_excluded (user_input : string) (user_taste : UserTaste) :
  exists out,
    search_offline_recipes partial_ratio recipes_df user_input user_taste = Some out
    /\ (forall idx row,
           nth_error recipes_df idx = Some row ->
           (row_score partial_ratio (query_ingredients user_input)
                      (liked_ingredients user_taste) row == 0)%Q ->
           ~ In idx (map res_idx out))
    /\ (forall idx row,
           nth_error recipes_df idx = Some row ->
           row_ingredients row = [] ->
           (row_score partial_ratio (query_ingredients user_input)
                      (liked_ingredients user_taste) row == 0)%Q
           /\ ~ In idx (map res_idx out)).
Proof.
  destruct (search_offline_recipes_frame user_input user_taste) as (out & E & Hmap & Hshow).
  assert (Hzero : forall idx row,
             nth_error recipes_df idx = Some row ->
             (row_score partial_ratio (query_ingredients user_input)
                        (liked_ingredients user_taste) row == 0)%Q ->
             ~ In idx (map res_idx out)).
  { intros idx row Hrow Hz Hin. apply in_map_iff in Hin as (r & <- & Hr).
    assert (Hin : In (label_and_score r)
                     (top_results partial_ratio recipes_df user_input user_taste)).
    { rewrite <- Hmap. now apply in_map. }
    apply in_top_results, in_scored_results in Hin as (row' & Hrow' & Hs & Hpos).
    rewrite Hrow in Hrow'. injection Hrow' as <-.
    rewrite Hs, Hz in Hpos. now apply Qlt_irrefl in Hpos. }
  exists out. split; [exact E|]. split; [exact Hzero|].
  intros idx row Hrow Hnil.
  assert (Hz : (row_score partial_ratio (query_ingredients user_input)
                          (liked_ingredients user_taste) row == 0)%Q).
  { unfold row_score. rewrite Hnil. cbn [map].
    unfold exact_matches, partial_matches, taste_bonus.
    rewrite sum_1_for_if_nil, !sum_1_for_if_length.
    assert (N : forall (c : string -> bool) (l : list string),
               (forall q, c q = false) -> filter c l = []).
    { intros c l Hc. induction l as [|q l IH]; cbn [filter]; [reflexivity|].
      now rewrite Hc. }
    rewrite !N by reflexivity. reflexivity. }
  split; [exact Hz | eauto].
Qed.

(** C9: partial is at least exact, for every query, corpus row and taste
    profile, as soon as the scorer rates a query token that is a member of
    the row's normalised ingredients above 75 against itself (a string
    against itself rates 100); such a token then counts twice in exact and
    once in partial, so the score is at least 3 per exact match. *)
Theorem partial_at_least_exact (user_input : string) (user_taste : UserTaste) (row : Row)
  (Hself : forall q,
      In q (query_ingredients user_input) ->
      In q (map normalize_ingredient (row_ingredients row)) ->
      (75 < partial_ratio q q)%Q) :
  let Qtok := query_ingredients user_input in
  let recipe_ings := map normalize_ingredient (row_ingredients row) in
  (exact_matches Qtok recipe_ings <= partial_matches partial_ratio Qtok recipe_ings)%Z
  /\ (3 * inject_Z (exact_matches Qtok recipe_ings)
      <= row_score partial_ratio Qtok (liked_ingredients user_taste) row)%Q.
Proof.
  intros Qtok recipe_ings.
  assert (Hle : (exact_matches Qtok recipe_ings
                 <= partial_matches partial_ratio Qtok recipe_ings)%Z).
  { apply sum_1_for_if_le. intros q Hq Hin. apply elem_In in Hin.
    apply existsb_exists. exists q. split; [exact Hin|].
    apply Qlt_bool_iff. now apply Hself. }
  split; [exact Hle|].
  unfold row_score. fold recipe_ings.
  assert (Ht := sum_1_for_if_nonneg (fun ing => PyStr.elem ing (liked_ingredients user_taste))
                                    recipe_ings).
  fold (taste_bonus recipe_ings (liked_ingredients user_taste)) in Ht.
  revert Hle Ht.
  generalize (exact_matches Qtok recipe_ings) as e.
  generalize (partial_matches partial_ratio Qtok recipe_ings) as p.
  generalize (taste_bonus recipe_ings (liked_ingredients user_taste)) as t.
  intros t p e Hle Ht. unfold Qle, Qplus, Qmult, inject_Z.
  cbn [Qnum Qden Pos.mul]. lia.
Qed.

End SearchFacts.

(** ** The partial ratio *)

Module FuzzFacts.
Import Fuzz.

Lemma lcs_nil_r a : lcs a [] = 0.
Proof. destruct a; reflexivity. Qed.

Lemma lcs_cons x a y b :
  lcs (x :: a) (y :: b)
  = if Ascii.eqb x y then S (lcs a b) else Nat.max (lcs a (y :: b)) (lcs (x :: a) b).
Proof. reflexivity. Qed.

Lemma lcs_refl a : lcs a a = List.length a.
Proof.
  induction a as [|x a IH]; [reflexivity|].
  rewrite lcs_cons, Ascii.eqb_refl, IH. reflexivity.
Qed.

Lemma lcs_bound a b : lcs a b <= List.length a /\ lcs a b <= List.length b.
Proof.
  revert b. induction a as [|x a IHa]; intros b; [cbn; lia|].
  induction b as [|y b IHb]; [rewrite lcs_nil_r; cbn; lia|].
  rewrite lcs_cons. cbn [List.length].
  destruct (Ascii.eqb x y).
  - destruct (IHa b). lia.
  - destruct (IHa (y :: b)). cbn [List.length] in *. lia.
Qed.

Lemma similarity_refl a : (indel_normalized_similarity a a == 1)%Q.
Proof.
  unfold indel_normalized_similarity, indel_distance. rewrite lcs_refl.
  destruct (_ =? 0); [reflexivity|].
  replace (List.length a + List.length a - 2 * List.length a) with 0 by lia.
  unfold Qdiv. cbn [Z.of_nat]. rewrite Qmult_0_l. reflexivity.
Qed.

Lemma similarity_le_1 a b : (indel_normalized_similarity a b <= 1)%Q.
Proof.
  unfold indel_normalized_similarity.
  destruct (_ =? 0) eqn:E; [apply Qle_refl|].
  apply Nat.eqb_neq in E.
  rewrite <- (Qplus_0_r 1) at 2. unfold Qminus. apply Qplus_le_r.
  rewrite <- (Qopp_involutive 0). apply Qopp_le_compat. cbn [Qopp Qnum Qden Z.opp].
  apply Qle_shift_div_l.
  - change 0%Q with (inject_Z 0). rewrite <- Zlt_Qlt. lia.
  - rewrite Qmult_0_l. change 0%Q with (inject_Z 0). rewrite <- Zle_Qle. lia.
Qed.

(** The running best score of the scan: never below the start, never below
    the score of a scanned alignment, and at most 1. *)
Lemma best_ge_start s1 ws start :
  (start <=
   fold_left (fun score w =>
                let ls_ratio := indel_normalized_similarity s1 w in
                if Qlt_bool score ls_ratio then ls_ratio else score) ws start)%Q.
Proof.
  revert start. induction ws as [|w ws IH]; intros start; cbn [fold_left].
  - apply Qle_refl.
  - eapply Qle_trans; [|apply IH]. cbv zeta.
    destruct (Qlt_bool start _) eqn:E.
    + apply Qlt_bool_iff in E. now apply Qlt_le_weak.
    + apply Qle_refl.
Qed.

Lemma best_ge_in s1 ws start w :
  In w ws ->
  (indel_normalized_similarity s1 w <=
   fold_left (fun score w =>
                let ls_ratio := indel_normalized_similarity s1 w in
                if Qlt_bool score ls_ratio then ls_ratio else score) ws start)%Q.
Proof.
  revert start. induction ws as [|v ws IH]; intros start; [intros []|].
  intros [->|H]; cbn [fold_left]; [|now apply IH].
  eapply Qle_trans; [|apply best_ge_start]. cbv zeta.
  destruct (Qlt_bool start _) eqn:E.
  - apply Qle_refl.
  - now apply Qlt_bool_false in E.
Qed.

Lemma best_le_1 s1 ws start :
  (start <= 1)%Q ->
  (fold_left (fun score w =>
                let ls_ratio := indel_normalized_similarity s1 w in
                if Qlt_bool score ls_ratio then ls_ratio else score) ws start <= 1)%Q.
Proof.
  revert start. induction ws as [|w ws IH]; intros start H; cbn [fold_left]; [exact H|].
  apply IH. cbv zeta. destruct (Qlt_bool start _); [apply similarity_le_1 | exact H].
Qed.

Lemma windows_whole a : a <> [] -> In a (windows (List.length a) a).
Proof.
  intros Ha. unfold windows. rewrite Nat.sub_diag. cbn [seq map app].
  apply in_or_app. right.
  destruct a as [|x a]; [congruence|]. cbn [List.length seq map skipn]. now left.
Qed.

Lemma partial_ratio_impl_refl a : a <> [] -> (partial_ratio_impl a a == 100)%Q.
Proof.
  intros Ha. unfold partial_ratio_impl.
  set (best := fold_left _ _ _).
  assert (E : (best == 1)%Q).
  { apply Qle_antisym.
    - apply best_le_1. discriminate.
    - rewrite <- (similarity_refl a). apply best_ge_in, windows_whole, Ha. }
  rewrite E. reflexivity.
Qed.

(** A string against itself rates exactly 100. *)
Lemma partial_ratio_refl s : (partial_ratio s s == 100)%Q.
Proof.
  unfold partial_ratio.
  set (a := list_ascii_of_string s).
  destruct (List.length a =? 0) eqn:E0; cbn [orb].
  - rewrite Nat.eqb_refl. reflexivity.
  - rewrite Nat.leb_refl.
    assert (Ha : a <> []) by (intros ->; discriminate).
    assert (E := partial_ratio_impl_refl a Ha).
    apply Qeq_bool_iff in E. rewrite E. cbn [negb andb].
    now apply Qeq_bool_iff.
Qed.

End FuzzFacts.

(** ** Worked examples of the ranking *)

(** C1 (as the code ranks it): for the corpus of the single recipe "Chole
    Masala" with ingredients chole, onion, tomato, the query "chickpeas"
    and an empty taste profile, the ranking returns exactly one row; its
    exact count is 1 (chole normalises to chickpeas), its partial count is
    1 as well, because the token rates above 75 against itself, and the
    score is 2*1 + 1 = 3. *)
Theorem chole_masala_scores_3 (partial_ratio : string -> string -> Q)
  (Hself : (75 < partial_ratio "chickpeas" "chickpeas")%Q) :
  exists r,
    search_offline_recipes partial_ratio chole_corpus "chickpeas" empty_taste = Some [r]
    /\ res_title r = "Chole Masala"
    /\ exact_matches (query_ingredients "chickpeas")
                     (map normalize_ingredient ["chole"; "onion"; "tomato"]) = 1%Z
    /\ partial_matches partial_ratio (query_ingredients "chickpeas")
                       (map normalize_ingredient ["chole"; "onion"; "tomato"]) = 1%Z
    /\ (match_score r == 3)%Q.
Proof.
  apply Qlt_bool_iff in Hself.
  assert (HQ : query_ingredients "chickpeas" = ["chickpeas"]) by reflexivity.
  assert (HR : map normalize_ingredient ["chole"; "onion"; "tomato"]
               = ["chickpeas"; "onion"; "tomato"]) by reflexivity.
  assert (HP : partial_matches partial_ratio ["chickpeas"] ["chickpeas"; "onion"; "tomato"]
               = 1%Z).
  { unfold partial_matches, sum_1_for_if. cbn [filter existsb]. now rewrite Hself. }
  unfold search_offline_recipes, scored_results.
  fold (query_ingredients "chickpeas"). rewrite HQ.
  cbn [chole_corpus iterrows List.length seq combine fold_left
       empty_taste liked_ingredients liked flat_map].
  unfold row_score. cbn [row_ingredients]. rewrite HR, HP.
  eexists. repeat split; reflexivity.
Qed.

Lemma chole_masala_scores_3_witness :
  exists r,
    search_offline_recipes Fuzz.partial_ratio chole_corpus "chickpeas" empty_taste = Some [r]
    /\ res_title r = "Chole Masala"
    /\ exact_matches (query_ingredients "chickpeas")
                     (map normalize_ingredient ["chole"; "onion"; "tomato"]) = 1%Z
    /\ partial_matches Fuzz.partial_ratio (query_ingredients "chickpeas")
                       (map normalize_ingredient ["chole"; "onion"; "tomato"]) = 1%Z
    /\ (match_score r == 3)%Q.
Proof. apply (chole_masala_scores_3 Fuzz.partial_ratio). vm_compute. reflexivity. Defined.

(** The score of that one row is not 2. *)
Lemma chole_masala_score_not_2 :
  ~ exists r,
      search_offline_recipes Fuzz.partial_ratio chole_corpus "chickpeas" empty_taste
      = Some [r]
      /\ (match_score r == 2)%Q.
Proof.
  intros (r & E & H). vm_compute in E. injection E as <-.
  vm_compute in H. discriminate.
Qed.

(** C6: a recipe can be ranked on its taste bonus alone.  With the query
    "salt", the corpus of the single recipe "Imli Chutney" (ingredient
    imli) and a liked recipe that lists tamarind, the recipe has exact = 0
    and partial = 0 whenever the scorer keeps salt and tamarind at or below
    75, and it is returned, with score 0.5. *)
Theorem taste_bonus_alone_ranks (partial_ratio : string -> string -> Q)
  (Hlow : (partial_ratio "salt" "tamarind" <= 75)%Q) :
  exists user_input recipes_df user_taste out r row,
    search_offline_recipes partial_ratio recipes_df user_input user_taste = Some out
    /\ In r out
    /\ nth_error recipes_df (res_idx r) = Some row
    /\ exact_matches (query_ingredients user_input)
                     (map normalize_ingredient (row_ingredients row)) = 0%Z
    /\ partial_matches partial_ratio (query_ingredients user_input)
                       (map normalize_ingredient (row_ingredients row)) = 0%Z
    /\ (match_score r == 1 # 2)%Q.
Proof.
  apply Qlt_bool_false in Hlow.
  exists "salt", imli_corpus, tamarind_taste.
  assert (HQ : query_ingredients "salt" = ["salt"]) by reflexivity.
  assert (HR : map normalize_ingredient ["imli"] = ["tamarind"]) by reflexivity.
  assert (HL : liked_ingredients tamarind_taste = ["tamarind"; "rice"]) by reflexivity.
  assert (HP : partial_matches partial_ratio ["salt"] ["tamarind"] = 0%Z).
  { unfold partial_matches, sum_1_for_if. cbn [filter existsb]. now rewrite Hlow. }
  unfold search_offline_recipes, scored_results.
  fold (query_ingredients "salt"). rewrite HQ, HL.
  cbn [imli_corpus iterrows List.length seq combine fold_left].
  unfold row_score. cbn [row_ingredients]. rewrite HR, HP.
  eexists. eexists. exists (mkRow "Imli Chutney" ["imli"]).
  split; [reflexivity|]. split; [now left|].
  cbn [row_ingredients]. rewrite HR, HP. repeat split; reflexivity.
Qed.

Lemma taste_bonus_alone_ranks_witness :
  exists user_input recipes_df user_taste out r row,
    search_offline_recipes Fuzz.partial_ratio recipes_df user_input user_taste = Some out
    /\ In r out
    /\ nth_error recipes_df (res_idx r) = Some row
    /\ exact_matches (query_ingredients user_input)
                     (map normalize_ingredient (row_ingredients row)) = 0%Z
    /\ partial_matches Fuzz.partial_ratio (query_ingredients user_input)
                       (map normalize_ingredient (row_ingredients row)) = 0%Z
    /\ (match_score r == 1 # 2)%Q.
Proof. apply (taste_bonus_alone_ranks Fuzz.partial_ratio). vm_compute. discriminate. Defined.

Lemma partial_at_least_exact_witness :
  let row := mkRow "Chole Masala" ["chole"; "onion"; "tomato"] in
  let Qtok := query_ingredients "Chickpeas, onion ,salt" in
  let recipe_ings := map normalize_ingredient (row_ingredients row) in
  (exact_matches Qtok recipe_ings <= partial_matches Fuzz.partial_ratio Qtok recipe_ings)%Z
  /\ (3 * inject_Z (exact_matches Qtok recipe_ings)
      <= row_score Fuzz.partial_ratio Qtok (liked_ingredients empty_taste) row)%Q.
Proof.
  apply (partial_at_least_exact Fuzz.partial_ratio "Chickpeas, onion ,salt" empty_taste
                                (mkRow "Chole Masala" ["chole"; "onion"; "tomato"])).
  intros q Hq _. vm_compute in Hq.
  destruct Hq as [<-|[<-|[<-|[]]]]; vm_compute; reflexivity.
Defined.

(** ** When the returned frame is empty *)



(** ** Liking a recipe *)

Lemma title_eqb_refl t : title_eqb t t = true.
Proof. destruct t; [apply String.eqb_refl | reflexivity]. Qed.

Lemma liked_has_title_app t data entry results mode :
  liked_has_title t (mkSession (mkTaste (liked data ++ [entry])) results mode)
  = liked_has_title t (mkSession data results mode) || title_eqb (title entry) t.
Proof.
  unfold liked_has_title. cbn [user_taste liked].
  rewrite existsb_app. cbn [existsb]. now rewrite orb_false_r.
Qed.

(** A like on the API results does nothing when the title is already
    liked, and appends the recipe itself otherwise. *)
Lemma like_api_present r st :
  liked_has_title (title r) st = true -> like_api r st = (st, []).
Proof. unfold like_api. now intros ->. Qed.

Lemma like_api_absent r st :
  liked_has_title (title r) st = false ->
  liked (user_taste (fst (like_api r st))) = liked (user_taste st) ++ [r].
Proof. unfold like_api. now intros ->. Qed.

(** On the API results a second like of the same recipe changes nothing. *)
Lemma like_api_twice r st :
  like_api r (fst (like_api r st)) = (fst (like_api r st), []).
Proof.
  apply like_api_present. unfold like_api.
  destruct (liked_has_title (title r) st) eqn:E; cbn [negb fst]; [exact E|].
  unfold append_and_save. cbn [fst]. destruct st as [data results mode].
  cbn [user_taste search_results search_mode].
  rewrite liked_has_title_app, title_eqb_refl. apply orb_true_r.
Qed.

(** A like on the offline results does nothing when the title of the row
    is already liked; otherwise it appends one entry, the enrichment result
    if there is one and else a record built from the row. *)
Lemma like_offline_present requests_get row st :
  liked_has_title (Some (res_title row)) st = true ->
  like_offline requests_get row st = (st, []).
Proof. unfold like_offline. now intros ->. Qed.

Lemma like_offline_absent requests_get row st :
  liked_has_title (Some (res_title row)) st = false ->
  exists entry,
    liked (user_taste (fst (like_offline requests_get row st)))
    = liked (user_taste st) ++ [entry]
    /\ (fst (enrich_offline_recipe requests_get (res_title row)) = Some entry
        \/ fst (enrich_offline_recipe requests_get (res_title row)) = None
           /\ title entry = Some (res_title row)
           /\ ingredients entry = Some (res_ingredients row)).
Proof.
  unfold like_offline. intros ->. cbn [negb].
  destruct (enrich_offline_recipe requests_get (res_title row)) as [[enriched|] events];
    cbn [append_and_save fst]; eexists; (split; [reflexivity|]); auto.
Qed.

(** C8 (where the code departs from it): on the offline results the like
    handler looks for the title of the row but stores the enrichment
    result, whose title is the remote service's.  With a service that
    answers "Chana Masala", liking the row "Chole Masala" twice stores two
    entries with the same title: the second like is not a no-op. *)
Theorem offline_like_twice_duplicates :
  let st1 := fst (like_offline chana_service chole_row chole_session) in
  let st2 := fst (like_offline chana_service chole_row st1) in
  map title (liked (user_taste st1)) = [Some "Chana Masala"]
  /\ map title (liked (user_taste st2)) = [Some "Chana Masala"; Some "Chana Masala"]
  /\ List.length (liked (user_taste st2)) = 2.
Proof. repeat split. Qed.

(** Without a remote answer the same two likes store the row once. *)
Lemma offline_like_twice_without_service :
  let st1 := fst (like_offline no_service chole_row chole_session) in
  let st2 := fst (like_offline no_service chole_row st1) in
  map title (liked (user_taste st1)) = [Some "Chole Masala"]
  /\ st2 = st1.
Proof. repeat split. Qed.

(** ** Recipes liked from the API results *)

(** The loop builds recipes exactly when every element is an object, and
    then one recipe per element, in order. *)
Lemma build_recipes_inr results recipes :
  build_recipes results = inr recipes <->
  exists items, results = map GoodItem items /\ recipes = map api_recipe items.
Proof.
  revert recipes. induction results as [|[e|x] results IH]; intros recipes; cbn [build_recipes].
  - split.
    + injection 1 as <-. now exists [].
    + intros ([|y items] & H1 & ->); [reflexivity | discriminate].
  - split; [discriminate|]. intros ([|y items] & H1 & _); discriminate.
  - destruct (build_recipes results) as [e|built].
    + split; [discriminate|]. intros ([|y items] & H1 & _); [discriminate|].
      injection H1 as _ H1. assert (H : @inl string (list Recipe) e = inr (map api_recipe items))
        by (apply IH; now exists items). discriminate.
    + split.
      * injection 1 as <-. destruct (proj1 (IH built) eq_refl) as (items & -> & ->).
        now exists (x :: items).
      * intros ([|y items] & H1 & ->); [discriminate|]. injection H1 as <- H1.
        assert (H : @inr string (list Recipe) built = inr (map api_recipe items))
          by (apply IH; now exists items).
        injection H as ->. reflexivity.
Qed.

Lemma get_recipes_from_api_ingredients requests_get user_input diet r :
  In r (fst (get_recipes_from_api requests_get user_input diet)) ->
  ingredients r = Some [].
Proof.
  unfold get_recipes_from_api.
  destruct (requests_get _) as [e|status_code body]; [intros []|].
  destruct (negb _); [intros []|].
  destruct body as [e|[[|x results]|]]; [intros [] | intros [] | | intros []].
  destruct (build_recipes (x :: results)) as [e|recipes] eqn:B; [intros []|].
  apply build_recipes_inr in B as (items & _ & ->).
  intros Hin. apply in_map_iff in Hin as (y & <- & _). reflexivity.
Qed.

Lemma liked_ingredients_app data entry :
  liked_ingredients (mkTaste (liked data ++ [entry]))
  = liked_ingredients data
    ++ map normalize_ingredient (get_default (ingredients entry) []).
Proof.
  unfold liked_ingredients. cbn [liked]. rewrite flat_map_app. cbn [flat_map].
  now rewrite app_nil_r.
Qed.

(** The ranking reads the taste memory through [liked_ings] only. *)
Lemma search_offline_recipes_liked partial_ratio recipes_df user_input taste1 taste2 :
  liked_ingredients taste1 = liked_ingredients taste2 ->
  search_offline_recipes partial_ratio recipes_df user_input taste1
  = search_offline_recipes partial_ratio recipes_df user_input taste2.
Proof. unfold search_offline_recipes. now intros ->. Qed.

(** C10: a recipe taken from the API results has an empty ingredient list;
    liking it when its title is not liked yet stores that very recipe at
    the end of the liked list (when the title is already liked the session
    is left as it is), so that afterwards the title is liked; the stored
    recipe leaves the liked ingredients unchanged, gives no taste bonus to
    any recipe, and leaves every later offline ranking as it was. *)
Theorem api_like_adds_no_taste
  (partial_ratio : string -> string -> Q) (recipes_df : list Row)
  (requests_get : Params -> HttpResult) (searched diet : string)
  (r : Recipe) (st : SessionState)
  (Hr : In r (fst (get_recipes_from_api requests_get searched diet))) :
  let st' := fst (like_api r st) in
  ingredients r = Some []
  /\ (liked_has_title (title r) st = false ->
      liked (user_taste st') = liked (user_taste st) ++ [r])
  /\ (liked_has_title (title r) st = true -> st' = st)
  /\ liked_has_title (title r) st' = true
  /\ liked_ingredients (mkTaste [r]) = []
  /\ liked_ingredients (user_taste st') = liked_ingredients (user_taste st)
  /\ (forall recipe_ings, taste_bonus recipe_ings (liked_ingredients (mkTaste [r])) = 0%Z)
  /\ (forall user_input,
         search_offline_recipes partial_ratio recipes_df user_input (user_taste st')
         = search_offline_recipes partial_ratio recipes_df user_input (user_taste st)).
Proof.
  intros st'. apply get_recipes_from_api_ingredients in Hr.
  assert (Hone : liked_ingredients (mkTaste [r]) = []).
  { unfold liked_ingredients. cbn [liked flat_map]. now rewrite Hr. }
  assert (Hsame : liked_ingredients (user_taste st') = liked_ingredients (user_taste st)).
  { subst st'. unfold like_api.
    destruct (liked_has_title (title r) st); cbn [negb fst]; [reflexivity|].
    unfold append_and_save. cbn [fst user_taste].
    rewrite liked_ingredients_app, Hr. cbn [get_default map]. apply app_nil_r. }
  split; [exact Hr|].
  split; [intros Hfresh; subst st'; now apply like_api_absent|].
  split; [intros Hliked; subst st'; now rewrite like_api_present|].
  split.
  { subst st'. unfold like_api.
    destruct (liked_has_title (title r) st) eqn:E; cbn [negb fst]; [exact E|].
    unfold append_and_save. cbn [fst]. destruct st as [data results mode].
    cbn [user_taste search_results search_mode].
    rewrite liked_has_title_app, title_eqb_refl. apply orb_true_r. }
  split; [exact Hone|]. split; [exact Hsame|]. split.
  - intros recipe_ings. rewrite Hone. unfold taste_bonus.
    rewrite sum_1_for_if_length.
    induction recipe_ings as [|x l IH]; [reflexivity | exact IH].
  - intros user_input. now apply search_offline_recipes_liked.
Qed.

Lemma api_like_adds_no_taste_witness :
  let r := mkRecipe (Some "Chana Masala") (MInt 45) (MInt 4)
                    "https://example.com/chana-masala" DEFAULT_IMAGE "Indian" "N/A"
                    (Some []) in
  let st' := fst (like_api r chole_session) in
  ingredients r = Some []
  /\ (liked_has_title (title r) chole_session = false ->
      liked (user_taste st') = liked (user_taste chole_session) ++ [r])
  /\ (liked_has_title (title r) chole_session = true -> st' = chole_session)
  /\ liked_has_title (title r) st' = true
  /\ liked_ingredients (mkTaste [r]) = []
  /\ liked_ingredients (user_taste st') = liked_ingredients (user_taste chole_session)
  /\ (forall recipe_ings, taste_bonus recipe_ings (liked_ingredients (mkTaste [r])) = 0%Z)
  /\ (forall user_input,
         search_offline_recipes Fuzz.partial_ratio chole_corpus user_input (user_taste st')
         = search_offline_recipes Fuzz.partial_ratio chole_corpus user_input
                                  (user_taste chole_session)).
Proof.
  apply (api_like_adds_no_taste Fuzz.partial_ratio chole_corpus chana_service
                                "chickpeas" "None").
  vm_compute. now left.
Defined.

(** ** Further properties of the normaliser *)

Lemma rstrip_space_end s : PyStr.rstrip (s ++ " ")%string = PyStr.rstrip s.
Proof.
  induction s as [|c s IH]; [reflexivity|].
  cbn [append PyStr.rstrip]. now rewrite IH.
Qed.

Lemma strip_space_end s : PyStr.strip (s ++ " ")%string = PyStr.strip s.
Proof.
  unfold PyStr.strip. induction s as [|c s IH]; [reflexivity|].
  cbn [append PyStr.lstrip]. destruct (PyStr.is_space c); [exact IH|].
  apply (rstrip_space_end (String c s)).
Qed.

Lemma lower_app s t : PyStr.lower (s ++ t)%string = (PyStr.lower s ++ PyStr.lower t)%string.
Proof. induction s as [|c s IH]; cbn [append PyStr.lower]; [reflexivity | now rewrite IH]. Qed.

(** X1: the normaliser ignores case and surrounding blanks: lower-casing
    the input, stripping it, or putting a space before or after it does not
    change the result. *)
Theorem normalize_ignores_case_and_padding (x : string) :
  normalize_ingredient (PyStr.lower x) = normalize_ingredient x
  /\ normalize_ingredient (PyStr.strip x) = normalize_ingredient x
  /\ normalize_ingredient (String " " x) = normalize_ingredient x
  /\ normalize_ingredient (x ++ " ")%string = normalize_ingredient x.
Proof.
  unfold normalize_ingredient. split; [|split; [|split]].
  - now rewrite PyStrFacts.lower_idem.
  - now rewrite PyStrFacts.lower_strip, PyStrFacts.strip_idem.
  - reflexivity.
  - rewrite lower_app. change (PyStr.lower " ") with " ". now rewrite strip_space_end.
Qed.

Lemma canonical_normal_form :
  Forall (fun v => PyStr.lower v = v /\ PyStr.strip v = v
                   /\ dict_get ingredient_synonyms v = None)
         (map snd ingredient_synonyms).
Proof. repeat constructor. Qed.

(** X2: every result of the normaliser is in normal form: it is in lower
    case, has no surrounding white space, and is never one of the raw
    names on the left of the synonym table. *)
Theorem normalize_result_normal_form (x : string) :
  PyStr.lower (normalize_ingredient x) = normalize_ingredient x
  /\ PyStr.strip (normalize_ingredient x) = normalize_ingredient x
  /\ dict_get ingredient_synonyms (normalize_ingredient x) = None.
Proof.
  unfold normalize_ingredient.
  destruct (dict_get ingredient_synonyms (PyStr.strip (PyStr.lower x))) as [v|] eqn:E.
  - apply dict_get_in in E. revert v E. apply Forall_forall, canonical_normal_form.
  - rewrite PyStrFacts.lower_strip, PyStrFacts.lower_idem, PyStrFacts.strip_idem. auto.
Qed.

(** A normalised ingredient is left alone by the normaliser. *)
Lemma normalize_fixed x :
  normalize_ingredient (normalize_ingredient x) = normalize_ingredient x.
Proof.
  unfold normalize_ingredient at 2 3.
  destruct (dict_get ingredient_synonyms (PyStr.strip (PyStr.lower x))) as [v|] eqn:E.
  - apply dict_get_in in E. revert v E. apply Forall_forall, canonical_fixed.
  - unfold normalize_ingredient.
    now rewrite PyStrFacts.lower_strip, PyStrFacts.lower_idem, PyStrFacts.strip_idem, E.
Qed.

Lemma normalize_lower x :
  normalize_ingredient (PyStr.lower x) = normalize_ingredient x.
Proof. unfold normalize_ingredient. now rewrite PyStrFacts.lower_idem. Qed.

(** ** Further properties of the query *)

Lemma split_length sep s : List.length (PyStr.split sep s) = S (count_char sep s).
Proof.
  induction s as [|c s IH]; [reflexivity|]. cbn [PyStr.split count_char].
  destruct (Ascii.eqb c sep); cbn [List.length Nat.add]; [now rewrite IH|].
  destruct (PyStr.split sep s); [discriminate | exact IH].
Qed.

Lemma split_app sep a b :
  PyStr.split sep (a ++ String sep b)%string = PyStr.split sep a ++ PyStr.split sep b.
Proof.
  induction a as [|c a IH]; cbn [append PyStr.split].
  - now rewrite Ascii.eqb_refl.
  - rewrite IH. destruct (Ascii.eqb c sep); [reflexivity|].
    assert (L := split_length sep a). destruct (PyStr.split sep a); [discriminate|].
    reflexivity.
Qed.

Lemma comma_lower_char c : Ascii.eqb (PyStr.lower_char c) "," = Ascii.eqb c ",".
Proof. destruct c as [[] [] [] [] [] [] [] []]; reflexivity. Qed.

Lemma split_lower s :
  PyStr.split "," (PyStr.lower s) = map PyStr.lower (PyStr.split "," s).
Proof.
  induction s as [|c s IH]; [reflexivity|]. cbn [PyStr.lower PyStr.split].
  rewrite comma_lower_char, IH. destruct (Ascii.eqb c ","); [reflexivity|].
  destruct (PyStr.split "," s); reflexivity.
Qed.

(** X3: a query of n commas gives n + 1 tokens, never none, and every token
    is normalised: normalising it again changes nothing. *)
Theorem query_tokens_counted_and_normalised (user_input : string) :
  List.length (query_ingredients user_input) = S (count_char "," user_input)
  /\ Forall (fun q => normalize_ingredient q = q) (query_ingredients user_input).
Proof.
  unfold query_ingredients. split.
  - rewrite length_map. apply split_length.
  - apply Forall_forall. intros q Hq. apply in_map_iff in Hq as (t & <- & _).
    apply normalize_fixed.
Qed.

Lemma query_ingredients_lower user_input :
  query_ingredients (PyStr.lower user_input) = query_ingredients user_input.
Proof.
  unfold query_ingredients. rewrite split_lower, map_map. apply map_ext.
  intros t. apply normalize_lower.
Qed.

(** X4: the ranking does not depend on the case of the query: the query in
    lower case gives the same frame. *)
Theorem search_ignores_query_case
  (partial_ratio : string -> string -> Q) (recipes_df : list Row)
  (user_input : string) (user_taste : UserTaste) :
  search_offline_recipes partial_ratio recipes_df (PyStr.lower user_input) user_taste
  = search_offline_recipes partial_ratio recipes_df user_input user_taste.
Proof.
  unfold search_offline_recipes.
  fold (query_ingredients (PyStr.lower user_input)). fold (query_ingredients user_input).
  now rewrite query_ingredients_lower.
Qed.

(** ** Further properties of the score *)

Lemma sum_1_for_if_app {A} (cond : A -> bool) (l1 l2 : list A) :
  sum_1_for_if cond (l1 ++ l2) = (sum_1_for_if cond l1 + sum_1_for_if cond l2)%Z.
Proof. rewrite !sum_1_for_if_length, filter_app, length_app. lia. Qed.

Lemma sum_1_for_if_le_length {A} (cond : A -> bool) (l : list A) :
  (sum_1_for_if cond l <= Z.of_nat (List.length l))%Z.
Proof.
  rewrite sum_1_for_if_length. apply Nat2Z.inj_le.
  induction l as [|x l IH]; cbn [filter List.length]; [lia|].
  destruct (cond x); cbn [List.length]; lia.
Qed.

Lemma sum_1_for_if_ext {A} (c1 c2 : A -> bool) (l : list A) :
  (forall x, c1 x = c2 x) -> sum_1_for_if c1 l = sum_1_for_if c2 l.
Proof. intros H. unfold sum_1_for_if. now rewrite (filter_ext _ _ H). Qed.

Lemma taste_bonus_nil recipe_ings : taste_bonus recipe_ings [] = 0%Z.
Proof.
  unfold taste_bonus. rewrite sum_1_for_if_length.
  induction recipe_ings as [|x l IH]; [reflexivity | exact IH].
Qed.

Lemma query_ingredients_comma a b :
  query_ingredients (a ++ String "," b)%string
  = query_ingredients a ++ query_ingredients b.
Proof. unfold query_ingredients. now rewrite split_app, map_app. Qed.

(** X5: query tokens are not deduplicated and count one by one: the score
    of two queries joined by a comma is the score of the first without any
    taste bonus plus the score of the second, so a token written twice
    counts twice. *)
Theorem score_additive_over_query
  (partial_ratio : string -> string -> Q) (a b : string)
  (liked_ings : list string) (row : Row) :
  (row_score partial_ratio (query_ingredients (a ++ String "," b)%string) liked_ings row
   == row_score partial_ratio (query_ingredients a) [] row
      + row_score partial_ratio (query_ingredients b) liked_ings row)%Q.
Proof.
  rewrite query_ingredients_comma. unfold row_score, exact_matches, partial_matches.
  rewrite !sum_1_for_if_app, taste_bonus_nil, !inject_Z_plus. ring.
Qed.

(** X6: the score of a row is never negative and at most 3 per query token
    plus one half per ingredient of the row. *)
Theorem score_bounds
  (partial_ratio : string -> string -> Q) (user_input : string)
  (liked_ings : list string) (row : Row) :
  (0 <= row_score partial_ratio (query_ingredients user_input) liked_ings row)%Q
  /\ (row_score partial_ratio (query_ingredients user_input) liked_ings row
      <= 3 * inject_Z (Z.of_nat (S (count_char "," user_input)))
         + (1 # 2) * inject_Z (Z.of_nat (List.length (row_ingredients row))))%Q.
Proof.
  replace (S (count_char "," user_input)) with (List.length (query_ingredients user_input))
    by (unfold query_ingredients; rewrite length_map; apply split_length).
  unfold row_score. cbv zeta.
  set (Qtok := query_ingredients user_input).
  set (R := map normalize_ingredient (row_ingredients row)).
  assert (LR : List.length (row_ingredients row) = List.length R)
    by (unfold R; now rewrite length_map).
  rewrite LR.
  assert (H1 : (0 <= exact_matches Qtok R <= Z.of_nat (List.length Qtok))%Z)
    by (split; [apply sum_1_for_if_nonneg | apply sum_1_for_if_le_length]).
  assert (H2 : (0 <= partial_matches partial_ratio Qtok R <= Z.of_nat (List.length Qtok))%Z)
    by (split; [apply sum_1_for_if_nonneg | apply sum_1_for_if_le_length]).
  assert (H3 : (0 <= taste_bonus R liked_ings <= Z.of_nat (List.length R))%Z)
    by (split; [apply sum_1_for_if_nonneg | apply sum_1_for_if_le_length]).
  revert H1 H2 H3.
  generalize (exact_matches Qtok R) (partial_matches partial_ratio Qtok R)
             (taste_bonus R liked_ings)
             (Z.of_nat (List.length Qtok)) (Z.of_nat (List.length R)).
  intros e p t n m H1 H2 H3.
  unfold Qle, Qplus, Qmult, inject_Z. cbn [Qnum Qden Pos.mul]. lia.
Qed.

(** X7: liking more recipes never lowers a score: with further recipes
    appended to the liked list, every row scores at least what it scored
    before, for the same query. *)
Theorem more_likes_never_lower_score
  (partial_ratio : string -> string -> Q) (ingredients : list string)
  (user_taste : UserTaste) (more : list Recipe) (row : Row) :
  (row_score partial_ratio ingredients (liked_ingredients user_taste) row
   <= row_score partial_ratio ingredients
                (liked_ingredients (mkTaste (liked user_taste ++ more))) row)%Q.
Proof.
  unfold row_score.
  set (R := map normalize_ingredient (row_ingredients row)).
  assert (H : (taste_bonus R (liked_ingredients user_taste)
               <= taste_bonus R (liked_ingredients (mkTaste (liked user_taste ++ more))))%Z).
  { apply sum_1_for_if_le. intros x _ Hx. apply elem_In. apply elem_In in Hx.
    unfold liked_ingredients in *. cbn [liked]. rewrite flat_map_app.
    apply in_or_app. now left. }
  revert H. generalize (taste_bonus R (liked_ingredients user_taste)) as t1.
  generalize (taste_bonus R (liked_ingredients (mkTaste (liked user_taste ++ more)))) as t2.
  generalize (exact_matches ingredients R) as e.
  generalize (partial_matches partial_ratio ingredients R) as p.
  intros p e t2 t1 H. unfold Qle, Qplus, Qmult, inject_Z. cbn [Qnum Qden Pos.mul]. lia.
Qed.

Lemma scored_results_same_liked partial_ratio recipes_df ingredients liked1 liked2 :
  (forall x, In x liked1 <-> In x liked2) ->
  scored_results partial_ratio recipes_df ingredients liked1
  = scored_results partial_ratio recipes_df ingredients liked2.
Proof.
  intros H. rewrite !scored_results_flat_map. apply flat_map_ext. intros [i row].
  unfold appended, row_score, taste_bonus. cbn [fst snd].
  rewrite (sum_1_for_if_ext (fun ing => PyStr.elem ing liked1)
                            (fun ing => PyStr.elem ing liked2)); [reflexivity|].
  intros x. apply eq_true_iff_eq. rewrite !elem_In. apply H.
Qed.

(** X8: the ranking uses the liked recipes only as a set of ingredients:
    two taste memories whose liked recipes list the same normalised
    ingredients, in whatever order and however often, rank alike. *)
Theorem search_depends_on_liked_ingredient_set
  (partial_ratio : string -> string -> Q) (recipes_df : list Row)
  (user_input : string) (taste1 taste2 : UserTaste)
  (Hsame : forall x, In x (liked_ingredients taste1) <-> In x (liked_ingredients taste2)) :
  search_offline_recipes partial_ratio recipes_df user_input taste1
  = search_offline_recipes partial_ratio recipes_df user_input taste2.
Proof.
  unfold search_offline_recipes.
  now rewrite (scored_results_same_liked _ _ _ _ _ Hsame).
Qed.

Lemma search_depends_on_liked_ingredient_set_witness :
  search_offline_recipes Fuzz.partial_ratio pantry_corpus "Onion, ghee"
                         (mkTaste [dal_recipe; raita_recipe])
  = search_offline_recipes Fuzz.partial_ratio pantry_corpus "Onion, ghee"
                           (mkTaste [raita_recipe; dal_recipe; raita_recipe]).
Proof.
  apply (search_depends_on_liked_ingredient_set Fuzz.partial_ratio pantry_corpus
           "Onion, ghee" (mkTaste [dal_recipe; raita_recipe])
           (mkTaste [raita_recipe; dal_recipe; raita_recipe])).
  intros x. vm_compute. tauto.
Defined.

(** ** Further properties of the ranking *)

Lemma nth_error_in_combine_seq {A} (l : list A) k i x :
  nth_error l i = Some x -> In (k + i, x) (combine (seq k (List.length l)) l).
Proof.
  revert k i. induction l as [|y l IH]; intros k [|i]; cbn [nth_error]; try discriminate.
  - injection 1 as ->. rewrite Nat.add_0_r. now left.
  - intros H. cbn [List.length seq combine]. right.
    replace (k + S i) with (S k + i) by lia. now apply IH.
Qed.

(** A corpus row that scores above 0 is an entry of [results]. *)
Lemma positive_in_scored_results partial_ratio recipes_df ingredients liked_ings idx row :
  nth_error recipes_df idx = Some row ->
  (0 < row_score partial_ratio ingredients liked_ings row)%Q ->
  In (idx, row_score partial_ratio ingredients liked_ings row)
     (scored_results partial_ratio recipes_df ingredients liked_ings).
Proof.
  intros Hrow Hpos. rewrite scored_results_flat_map. apply in_flat_map.
  exists (idx, row). split.
  - apply (nth_error_in_combine_seq recipes_df 0 idx row Hrow).
  - unfold appended. cbn [fst snd]. apply Qlt_bool_iff in Hpos. rewrite Hpos. now left.
Qed.

Lemma scored_results_length partial_ratio recipes_df user_input user_taste :
  List.length (scored_results partial_ratio recipes_df (query_ingredients user_input)
                              (liked_ingredients user_taste))
  = List.length (positive_rows partial_ratio recipes_df user_input user_taste).
Proof.
  rewrite scored_results_flat_map. unfold positive_rows, iterrows. generalize 0 as k.
  induction recipes_df as [|x l IH]; intros k; [reflexivity|].
  cbn [List.length seq combine flat_map filter]. rewrite length_app, (IH (S k)).
  unfold appended. cbn [fst snd]. destruct (Qlt_bool 0 _); reflexivity.
Qed.

Lemma StronglySorted_lt_NoDup (l : list (nat * Q)) :
  StronglySorted (fun a b => fst a < fst b) l -> NoDup (map fst l).
Proof.
  induction 1 as [|x l Hl IH Hx]; cbn [map]; constructor; [|exact IH].
  intros Hin. apply in_map_iff in Hin as (y & E & Hy).
  rewrite Forall_forall in Hx. specialize (Hx y Hy). lia.
Qed.

Lemma NoDup_firstn {A} n (l : list A) : NoDup l -> NoDup (firstn n l).
Proof.
  intros H. revert n. induction H as [|x l Hx Hl IH]; intros [|n]; cbn [firstn];
    try constructor; auto.
  intros Hin. apply Hx. eapply In_firstn, Hin.
Qed.

Lemma StronglySorted_app_inv {A} (R : A -> A -> Prop) l1 l2 a b :
  StronglySorted R (l1 ++ l2) -> In a l1 -> In b l2 -> R a b.
Proof.
  induction l1 as [|x l1 IH]; [intros _ []|].
  cbn [app]. intros H Ha Hb. inversion H as [|? ? Hl Hx]; subst.
  destruct Ha as [->|Ha]; [|now apply IH].
  rewrite Forall_forall in Hx. apply Hx, in_or_app. now right.
Qed.

(** X9: a corpus row is returned at most once: the labels of the returned
    frame are pairwise different. *)
Theorem search_returns_each_row_once
  (partial_ratio : string -> string -> Q) (recipes_df : list Row)
  (user_input : string) (user_taste : UserTaste) :
  exists out,
    search_offline_recipes partial_ratio recipes_df user_input user_taste = Some out
    /\ NoDup (map res_idx out).
Proof.
  destruct (search_offline_recipes_frame partial_ratio recipes_df user_input user_taste)
    as (out & E & Hmap & _).
  exists out. split; [exact E|].
  replace (map res_idx out) with (map fst (map label_and_score out))
    by (rewrite map_map; reflexivity).
  rewrite Hmap. unfold top_results. rewrite <- firstn_map. apply NoDup_firstn.
  eapply Permutation_NoDup.
  - apply Permutation_map. symmetry. apply sorted_reverse_perm.
  - apply StronglySorted_lt_NoDup, scored_results_increasing.
Qed.

(** X10: the returned frame has as many rows as the corpus has rows that
    score above 0, up to 20; with an empty corpus it is empty. *)
Theorem search_returns_min_20_positive
  (partial_ratio : string -> string -> Q) (recipes_df : list Row)
  (user_input : string) (user_taste : UserTaste) :
  exists out,
    search_offline_recipes partial_ratio recipes_df user_input user_taste = Some out
    /\ List.length out
       = Nat.min 20 (List.length (positive_rows partial_ratio recipes_df user_input user_taste))
    /\ (recipes_df = [] -> out = []).
Proof.
  destruct (search_offline_recipes_frame partial_ratio recipes_df user_input user_taste)
    as (out & E & Hmap & _).
  assert (L : List.length out
              = Nat.min 20 (List.length (positive_rows partial_ratio recipes_df
                                                       user_input user_taste))).
  { rewrite <- (length_map label_and_score), Hmap. unfold top_results.
    fold (query_ingredients user_input).
    rewrite length_firstn, (Permutation_length (sorted_reverse_perm snd _)).
    now rewrite scored_results_length. }
  exists out. split; [exact E|]. split; [exact L|].
  intros ->. destruct out; [reflexivity | discriminate].
Qed.

(** X11: nothing that scores better is left out: a corpus row that scores
    above 0 is either returned, or the frame is full with 20 rows that all
    score at least as much. *)
Theorem search_keeps_the_best
  (partial_ratio : string -> string -> Q) (recipes_df : list Row)
  (user_input : string) (user_taste : UserTaste) (idx : nat) (row : Row)
  (Hrow : nth_error recipes_df idx = Some row)
  (Hpos : (0 < row_score partial_ratio (query_ingredients user_input)
                         (liked_ingredients user_taste) row)%Q) :
  exists out,
    search_offline_recipes partial_ratio recipes_df user_input user_taste = Some out
    /\ (In idx (map res_idx out)
        \/ List.length out = 20
           /\ Forall (fun r =>
                        (row_score partial_ratio (query_ingredients user_input)
                                   (liked_ingredients user_taste) row
                         <= match_score r)%Q) out).
Proof.
  destruct (search_offline_recipes_frame partial_ratio recipes_df user_input user_taste)
    as (out & E & Hmap & _).
  exists out. split; [exact E|].
  set (s := row_score _ _ _ _) in *.
  set (ranked := sorted_reverse snd
                   (scored_results partial_ratio recipes_df (query_ingredients user_input)
                                   (liked_ingredients user_taste))).
  assert (Htop : map label_and_score out = firstn 20 ranked) by exact Hmap.
  assert (Hin : In (idx, s) ranked).
  { eapply Permutation_in; [symmetry; apply sorted_reverse_perm|].
    now apply positive_in_scored_results. }
  assert (Hranked : StronglySorted ranks_before ranked)
    by apply sorted_reverse_ranked, scored_results_increasing.
  rewrite <- (firstn_skipn 20 ranked) in Hin, Hranked.
  apply in_app_or in Hin as [Hin|Hin].
  - left. rewrite <- Htop in Hin. apply in_map_iff in Hin as (r & Er & Hr).
    apply in_map_iff. exists r. split; [|exact Hr].
    now apply (f_equal fst) in Er.
  - right. split.
    + rewrite <- (length_map label_and_score), Htop, length_firstn.
      assert (20 < List.length ranked); [|lia].
      destruct (Nat.lt_ge_cases 20 (List.length ranked)) as [L|L]; [exact L|].
      rewrite skipn_all2 in Hin by exact L. destruct Hin.
    + apply Forall_forall. intros r Hr.
      assert (Hr' : In (label_and_score r) (firstn 20 ranked))
        by (rewrite <- Htop; now apply in_map).
      destruct (StronglySorted_app_inv _ _ _ _ _ Hranked Hr' Hin) as [L|[L _]];
        cbn [label_and_score fst snd] in L.
      * now apply Qlt_le_weak.
      * rewrite L. apply Qle_refl.
Qed.

Lemma search_keeps_the_best_witness :
  exists out,
    search_offline_recipes Fuzz.partial_ratio pantry_corpus "Onion, ghee"
                           (mkTaste [raita_recipe]) = Some out
    /\ (In 2 (map res_idx out)
        \/ List.length out = 20
           /\ Forall (fun r =>
                        (row_score Fuzz.partial_ratio (query_ingredients "Onion, ghee")
                                   (liked_ingredients (mkTaste [raita_recipe]))
                                   (mkRow "Dal Fry" ["dal"; "onion"; "ghee"; "jeera"])
                         <= match_score r)%Q) out).
Proof.
  apply (search_keeps_the_best Fuzz.partial_ratio pantry_corpus "Onion, ghee"
                               (mkTaste [raita_recipe]) 2).
  - reflexivity.
  - vm_compute. reflexivity.
Defined.

(** ** Further properties of the gateway *)

Lemma cuisines_text_truthy x : PyStr.truthy (cuisines_text x) = true.
Proof.
  unfold cuisines_text.
  destruct (PyStr.truthy (PyStr.join ", " (get_default (x_cuisines x) []))) eqn:E;
    [exact E | reflexivity].
Qed.

(** X12: [get_recipes_from_api] sends exactly one request, for up to 10
    recipes with the raw input as [includeIngredients] and the diet in
    lower case unless it is "None"; it never writes the taste file; and it
    returns recipes exactly when the answer has status 200 and a non-empty
    result list every element of which builds a recipe: an exception,
    another status, a body that is not JSON, a missing or an empty result
    list, or one element that raises while its recipe is built, all give
    the empty list. *)
Theorem gateway_one_request_and_failures
  (requests_get : Params -> HttpResult) (user_input diet : string) :
  let params :=
    mkParams (Some user_input) None 10
             (if String.eqb diet "None" then None else Some (PyStr.lower diet)) in
  let answer := get_recipes_from_api requests_get user_input diet in
  requests (snd answer) = [params]
  /\ saves (snd answer) = []
  /\ (fst answer <> []
      <-> exists x items,
          requests_get params = Responded 200 (Data (Some (map GoodItem (x :: items))))).
Proof.
  cbv zeta. unfold get_recipes_from_api.
  destruct (requests_get _) as [e|status_code body] eqn:E.
  - split; [reflexivity|]. split; [reflexivity|]. split.
    + intros H. now elim H.
    + intros (x & items & H). discriminate.
  - destruct (status_code =? 200)%Z eqn:S; cbn [negb].
    + apply Z.eqb_eq in S. subst status_code.
      destruct body as [e|[[|el results]|]].
      * split; [reflexivity|]. split; [reflexivity|]. split.
        -- intros H. now elim H.
        -- intros (x & items & H). discriminate.
      * split; [reflexivity|]. split; [reflexivity|]. split.
        -- intros H. now elim H.
        -- intros (x & items & H). discriminate.
      * destruct (build_recipes (el :: results)) as [e|recipes] eqn:B.
        -- split; [reflexivity|]. split; [reflexivity|]. split.
           ++ intros H. now elim H.
           ++ intros (x & items & H).
              assert (H' : el :: results = map GoodItem (x :: items)) by congruence.
              assert (B' : build_recipes (el :: results)
                           = inr (map api_recipe (x :: items)))
                by (apply build_recipes_inr; now exists (x :: items)).
              rewrite B' in B. discriminate.
        -- split; [reflexivity|]. split; [reflexivity|].
           apply build_recipes_inr in B as ([|x items] & Hres & ->); [discriminate|].
           rewrite Hres. split; [|discriminate]. intros _. now exists x, items.
      * split; [reflexivity|]. split; [reflexivity|]. split.
        -- intros H. now elim H.
        -- intros (x & items & H). discriminate.
    + split; [reflexivity|]. split; [reflexivity|]. split.
      * intros H. now elim H.
      * intros (x & items & H). injection H as -> _. discriminate.
Qed.

(** X13: when every element of a 200 answer builds a recipe,
    [get_recipes_from_api] returns one recipe per element, in the order of
    the results and with their titles ([None] for a title that is absent or
    null); and whatever the answer, every recipe it returns has nutrition
    "N/A", no ingredients, and a cuisines text that is not empty. *)
Theorem gateway_recipes_shape
  (requests_get : Params -> HttpResult) (user_input diet : string) :
  let params :=
    mkParams (Some user_input) None 10
             (if String.eqb diet "None" then None else Some (PyStr.lower diet)) in
  let recipes := fst (get_recipes_from_api requests_get user_input diet) in
  (forall items,
      requests_get params = Responded 200 (Data (Some (map GoodItem items))) ->
      List.length recipes = List.length items
      /\ map title recipes = map (fun x => get_default (x_title x) None) items)
  /\ Forall (fun r => nutrition r = "N/A" /\ ingredients r = Some []
                      /\ PyStr.truthy (cuisines r) = true) recipes.
Proof.
  cbv zeta. unfold get_recipes_from_api.
  assert (Shape : forall items,
             Forall (fun r => nutrition r = "N/A" /\ ingredients r = Some []
                              /\ PyStr.truthy (cuisines r) = true)
                    (map api_recipe items)).
  { intros items. apply Forall_forall. intros r Hr.
    apply in_map_iff in Hr as (y & <- & _).
    cbn [api_recipe nutrition ingredients cuisines]. auto using cuisines_text_truthy. }
  destruct (requests_get _) as [e|status_code body] eqn:E.
  - split; [discriminate | constructor].
  - destruct (status_code =? 200)%Z eqn:S; cbn [negb].
    + destruct body as [e|[[|el results]|]].
      * split; [discriminate | constructor].
      * split; [|constructor]. intros [|y items] H; [split; reflexivity | discriminate].
      * destruct (build_recipes (el :: results)) as [e|recipes] eqn:B.
        -- split; [|constructor]. intros items H.
           assert (H' : el :: results = map GoodItem items) by congruence.
           assert (B' : build_recipes (el :: results) = inr (map api_recipe items))
             by (apply build_recipes_inr; now exists items).
           rewrite B' in B. discriminate.
        -- apply build_recipes_inr in B as (items0 & Hres & ->). cbn [fst].
           split; [|apply Shape]. intros items H0.
           assert (H : map GoodItem items0 = map GoodItem items) by congruence.
           assert (items0 = items).
           { clear - H. revert items H.
             induction items0 as [|a l IH]; intros [|b m] H; try discriminate; [reflexivity|].
             injection H as -> H. f_equal. now apply IH. }
           subst items0. rewrite !length_map, map_map. split; reflexivity.
      * split; [discriminate | constructor].
    + split; [|constructor]. intros items H. injection H as -> _. discriminate.
Qed.

(** X14: [enrich_offline_recipe] asks for one recipe by name and never
    saves; it returns a record exactly when the answer has status 200 and
    a result list whose first element builds a recipe, whatever follows it.
    The record carries the remote title ([None] for a null title), or the
    requested name when the answer has no title, no ingredients, and a
    cuisines text that is not empty. *)
Theorem enrichment_shape
  (requests_get : Params -> HttpResult) (recipe_name : string) :
  let params := mkParams None (Some recipe_name) 1 None in
  let answer := enrich_offline_recipe requests_get recipe_name in
  requests (snd answer) = [params]
  /\ saves (snd answer) = []
  /\ match fst answer with
     | Some enriched =>
         exists x rest,
           requests_get params = Responded 200 (Data (Some (GoodItem x :: rest)))
           /\ title enriched = get_default (x_title x) (Some recipe_name)
           /\ ingredients enriched = Some []
           /\ PyStr.truthy (cuisines enriched) = true
     | None =>
         forall x rest,
           requests_get params <> Responded 200 (Data (Some (GoodItem x :: rest)))
     end.
Proof.
  cbv zeta. unfold enrich_offline_recipe.
  destruct (requests_get _) as [e|status_code body] eqn:E.
  - split; [reflexivity|]. split; [reflexivity|]. cbn [fst]. discriminate.
  - destruct (status_code =? 200)%Z eqn:S; cbn [negb].
    + apply Z.eqb_eq in S. subst status_code.
      destruct body as [e|[[|[e|x] results]|]];
        (split; [reflexivity|]); (split; [reflexivity|]); cbn [fst]; try discriminate.
      exists x, results. cbn [title ingredients cuisines].
      auto using cuisines_text_truthy.
    + split; [reflexivity|]. split; [reflexivity|]. cbn [fst].
      intros x rest H. injection H as -> _. discriminate.
Qed.

Lemma count_char_app c s t :
  count_char c (s ++ t)%string = count_char c s + count_char c t.
Proof. induction s as [|d s IH]; cbn [append count_char]; [reflexivity | rewrite IH; lia]. Qed.

Lemma count_space_replace s : count_char " " (PyStr.replace " " "+" s) = 0.
Proof.
  induction s as [|d s IH]; [reflexivity|]. cbn [PyStr.replace].
  destruct (Ascii.eqb d " ") eqn:E; cbn [append count_char]; [exact IH|].
  now rewrite E, IH.
Qed.

Lemma count_plus_replace s :
  count_char "+" (PyStr.replace " " "+" s) = count_char " " s + count_char "+" s.
Proof.
  induction s as [|d s IH]; [reflexivity|]. cbn [PyStr.replace count_char].
  destruct (Ascii.eqb d " ") eqn:E.
  - apply Ascii.eqb_eq in E. subst d. cbn [append count_char Ascii.eqb Bool.eqb].
    cbn. rewrite IH. lia.
  - cbn [count_char]. rewrite IH. lia.
Qed.

(** X15: a Google search link never contains a space: every space of the
    recipe name has become a "+", next to the one "+" of "+recipe". *)
Theorem google_search_link_has_no_space (recipe_name : string) :
  count_char " " (google_search_link recipe_name) = 0
  /\ count_char "+" (google_search_link recipe_name)
     = count_char " " recipe_name + count_char "+" recipe_name + 1.
Proof.
  unfold google_search_link. cbv zeta.
  rewrite !count_char_app, count_space_replace, count_plus_replace.
  split; cbn; lia.
Qed.

(** ** Further properties of the handlers *)

Lemma get_recipes_from_api_events requests_get user_input diet :
  exists params,
    requests (snd (get_recipes_from_api requests_get user_input diet)) = [params]
    /\ saves (snd (get_recipes_from_api requests_get user_input diet)) = [].
Proof.
  unfold get_recipes_from_api. eexists.
  destruct (requests_get _) as [e|status_code [e|[[|x results]|]]];
    try destruct (negb _); try destruct (build_recipes _); split; reflexivity.
Qed.

Lemma enrich_offline_recipe_events requests_get recipe_name :
  saves (snd (enrich_offline_recipe requests_get recipe_name)) = [].
Proof.
  unfold enrich_offline_recipe.
  destruct (requests_get _) as [e|status_code [e|[[|[e|x] results]|]]];
    try destruct (negb _); reflexivity.
Qed.

(** X16: the Find Recipes handler never fails and never touches the taste
    memory: it always ends with a session state, the liked recipes are the
    same as before, nothing is saved, and it sends one request for a
    non-empty input and none for the empty input. *)
Theorem find_recipes_safe
  (partial_ratio : string -> string -> Q) (recipes_df : list Row)
  (requests_get : Params -> HttpResult) (user_input diet : string) (st : SessionState) :
  exists st' events,
    find_recipes partial_ratio recipes_df requests_get user_input diet st
    = Some (st', events)
    /\ user_taste st' = user_taste st
    /\ saves events = []
    /\ List.length (requests events) = (if PyStr.truthy user_input then 1 else 0).
Proof.
  unfold find_recipes. destruct (PyStr.truthy user_input).
  - destruct (get_recipes_from_api_events requests_get user_input diet)
      as (params & Hreq & Hsave).
    destruct (get_recipes_from_api requests_get user_input diet) as [[|r api] events].
    + destruct (search_offline_recipes_frame partial_ratio recipes_df user_input
                                             (user_taste st)) as (out & -> & _).
      cbn [snd] in *. do 2 eexists. split; [reflexivity|].
      rewrite Hreq, Hsave. auto.
    + cbn [snd] in *. do 2 eexists. split; [reflexivity|].
      rewrite Hreq, Hsave. auto.
  - do 2 eexists. split; [reflexivity|]. auto.
Qed.

(** X17: for a non-empty input the remote results win whenever there are
    any, and the offline ranking is the fallback: the session then shows
    the frame of [search_offline_recipes] for the same input and the
    session's taste memory, in offline mode. *)
Theorem find_recipes_api_first_offline_fallback
  (partial_ratio : string -> string -> Q) (recipes_df : list Row)
  (requests_get : Params -> HttpResult) (user_input diet : string) (st : SessionState)
  (Hinput : PyStr.truthy user_input = true) :
  let answer := get_recipes_from_api requests_get user_input diet in
  (fst answer <> [] ->
   find_recipes partial_ratio recipes_df requests_get user_input diet st
   = Some (mkSession (user_taste st) (Some (ApiRecipes (fst answer))) (Some ModeApi),
           snd answer))
  /\ (fst answer = [] ->
      exists out,
        search_offline_recipes partial_ratio recipes_df user_input (user_taste st) = Some out
        /\ find_recipes partial_ratio recipes_df requests_get user_input diet st
           = Some (mkSession (user_taste st) (Some (OfflineFrame out)) (Some ModeOffline),
                   snd answer)).
Proof.
  cbv zeta. unfold find_recipes. rewrite Hinput.
  destruct (get_recipes_from_api requests_get user_input diet) as [[|r api] events];
    cbn [fst snd]; split.
  - intros H. now elim H.
  - intros _.
    destruct (search_offline_recipes_frame partial_ratio recipes_df user_input
                                           (user_taste st)) as (out & E & _).
    exists out. now rewrite E.
  - reflexivity.
  - discriminate.
Qed.

Lemma find_recipes_api_first_offline_fallback_witness :
  let answer := get_recipes_from_api no_service "chickpeas" "Vegan" in
  (fst answer <> [] ->
   find_recipes Fuzz.partial_ratio chole_corpus no_service "chickpeas" "Vegan"
                (init_session None)
   = Some (mkSession (user_taste (init_session None)) (Some (ApiRecipes (fst answer)))
                     (Some ModeApi),
           snd answer))
  /\ (fst answer = [] ->
      exists out,
        search_offline_recipes Fuzz.partial_ratio chole_corpus "chickpeas"
                               (user_taste (init_session None)) = Some out
        /\ find_recipes Fuzz.partial_ratio chole_corpus no_service "chickpeas" "Vegan"
                        (init_session None)
           = Some (mkSession (user_taste (init_session None)) (Some (OfflineFrame out))
                             (Some ModeOffline),
                   snd answer)).
Proof.
  apply (find_recipes_api_first_offline_fallback Fuzz.partial_ratio chole_corpus no_service
           "chickpeas" "Vegan" (init_session None)).
  reflexivity.
Defined.

(** X18: the session never holds results of one kind under the mode of the
    other, nor an empty list of API results: a fresh session is consistent,
    and Find Recipes, both like buttons and the remove button keep a
    consistent session consistent. *)
Theorem session_stays_consistent
  (partial_ratio : string -> string -> Q) (recipes_df : list Row)
  (requests_get : Params -> HttpResult) (user_input diet : string)
  (r : Recipe) (row : ResultRow) (st : SessionState)
  (Hst : consistent st) :
  (exists st' events,
      find_recipes partial_ratio recipes_df requests_get user_input diet st
      = Some (st', events) /\ consistent st')
  /\ consistent (fst (like_api r st))
  /\ consistent (fst (like_offline requests_get row st))
  /\ consistent (fst (remove_liked r st)).
Proof.
  split; [|split; [|split]].
  - unfold find_recipes. destruct (PyStr.truthy user_input).
    + destruct (get_recipes_from_api requests_get user_input diet) as [[|x api] events].
      * destruct (search_offline_recipes_frame partial_ratio recipes_df user_input
                                               (user_taste st)) as (out & -> & _).
        do 2 eexists. split; [reflexivity | exact I].
      * do 2 eexists. split; [reflexivity | discriminate].
    + do 2 eexists. split; [reflexivity | exact Hst].
  - unfold like_api. destruct (negb _); [exact Hst | exact Hst].
  - unfold like_offline. destruct (negb _); [|exact Hst].
    destruct (enrich_offline_recipe _ _) as [enriched events]. exact Hst.
  - exact Hst.
Qed.

Lemma session_stays_consistent_witness :
  (exists st' events,
      find_recipes Fuzz.partial_ratio chole_corpus chana_service "chole" "None"
                   (init_session None)
      = Some (st', events) /\ consistent st')
  /\ consistent (fst (like_api dal_recipe (init_session None)))
  /\ consistent (fst (like_offline chana_service chole_row (init_session None)))
  /\ consistent (fst (remove_liked dal_recipe (init_session None))).
Proof.
  apply (session_stays_consistent Fuzz.partial_ratio chole_corpus chana_service
           "chole" "None" dal_recipe chole_row (init_session None)).
  exact I.
Defined.

(** ** Further properties of the taste memory *)

Lemma title_eqb_eq a b : title_eqb a b = true <-> a = b.
Proof.
  destruct a as [s|], b as [t|]; cbn [title_eqb]; try (split; [discriminate | discriminate]).
  - rewrite String.eqb_eq. split; [now intros -> | now injection 1].
  - split; reflexivity.
Qed.

Lemma liked_has_title_In t st :
  liked_has_title t st = true <-> In t (map title (liked (user_taste st))).
Proof.
  unfold liked_has_title. rewrite existsb_exists, in_map_iff.
  split; intros (x & H1 & H2).
  - exists x. apply title_eqb_eq in H2. auto.
  - exists x. split; [exact H2 | now apply title_eqb_eq].
Qed.

Lemma filter_other_titles_id t l :
  ~ In t (map title l) ->
  filter (fun x => negb (title_eqb (title x) t)) l = l.
Proof.
  induction l as [|x l IH]; cbn [map filter]; [reflexivity|]. intros H.
  destruct (title_eqb (title x) t) eqn:E; cbn [negb].
  - apply title_eqb_eq in E. elim H. now left.
  - rewrite IH; [reflexivity|]. intros Hin. apply H. now right.
Qed.

Lemma NoDup_map_filter {A B} (f : A -> B) (keep : A -> bool) l :
  NoDup (map f l) -> NoDup (map f (filter keep l)).
Proof.
  induction l as [|x l IH]; cbn [map filter]; [auto|]. intros H.
  inversion H as [|? ? Hx Hl]; subst. destruct (keep x); cbn [map]; [|auto].
  constructor; [|auto]. intros Hin. apply Hx.
  apply in_map_iff in Hin as (y & E & Hy). apply filter_In in Hy as [Hy _].
  apply in_map_iff. now exists y.
Qed.

(** X19: the like button of the API results and the remove button keep
    the liked titles pairwise different. *)
Theorem api_like_and_remove_keep_titles_unique (r : Recipe) (st : SessionState)
  (Huniq : titles_unique (user_taste st)) :
  titles_unique (user_taste (fst (like_api r st)))
  /\ titles_unique (user_taste (fst (remove_liked r st))).
Proof.
  unfold titles_unique in *. split.
  - unfold like_api. destruct (liked_has_title (title r) st) eqn:E; cbn [negb fst]; [exact Huniq|].
    unfold append_and_save. cbn [fst user_taste liked].
    rewrite map_app. cbn [map]. apply NoDup_app; [exact Huniq | repeat constructor; intros [] |].
    intros t Ht [<-|[]]. apply liked_has_title_In in Ht. congruence.
  - cbn [remove_liked fst user_taste liked]. now apply NoDup_map_filter.
Qed.

Lemma api_like_and_remove_keep_titles_unique_witness :
  titles_unique (user_taste (fst (like_api dal_recipe
                                           (mkSession (mkTaste [raita_recipe]) None None))))
  /\ titles_unique (user_taste (fst (remove_liked dal_recipe
                                       (mkSession (mkTaste [raita_recipe]) None None)))).
Proof.
  apply (api_like_and_remove_keep_titles_unique dal_recipe
           (mkSession (mkTaste [raita_recipe]) None None)).
  unfold titles_unique. cbn. repeat constructor. intros [].
Defined.

(** X20: a like button only ever appends: after either like handler the
    liked list is the old list followed by at most one new entry, and the
    search results and the mode of the session are untouched. *)
Theorem likes_only_append
  (requests_get : Params -> HttpResult) (r : Recipe) (row : ResultRow) (st : SessionState) :
  (exists extra,
      liked (user_taste (fst (like_api r st))) = liked (user_taste st) ++ extra
      /\ List.length extra <= 1
      /\ search_results (fst (like_api r st)) = search_results st
      /\ search_mode (fst (like_api r st)) = search_mode st)
  /\ (exists extra,
         liked (user_taste (fst (like_offline requests_get row st)))
         = liked (user_taste st) ++ extra
         /\ List.length extra <= 1
         /\ search_results (fst (like_offline requests_get row st)) = search_results st
         /\ search_mode (fst (like_offline requests_get row st)) = search_mode st).
Proof.
  split.
  - unfold like_api. destruct (negb _); cbn [fst append_and_save user_taste liked
                                             search_results search_mode].
    + exists [r]. auto.
    + exists []. rewrite app_nil_r. auto.
  - unfold like_offline. destruct (negb _).
    + destruct (enrich_offline_recipe _ _) as [enriched events].
      cbn [fst append_and_save user_taste liked search_results search_mode].
      eexists [_]. auto.
    + exists []. rewrite app_nil_r. auto.
Qed.

(** X21: a like on the offline results teaches the ranking the row's
    ingredients only when the enrichment fails: with an enrichment result
    the liked ingredients stay as they were, without one they grow by the
    normalised ingredients of the row. *)
Theorem offline_like_learns_ingredients_only_without_enrichment
  (requests_get : Params -> HttpResult) (row : ResultRow) (st : SessionState)
  (Hfresh : liked_has_title (Some (res_title row)) st = false) :
  let st' := fst (like_offline requests_get row st) in
  match fst (enrich_offline_recipe requests_get (res_title row)) with
  | Some _ => liked_ingredients (user_taste st') = liked_ingredients (user_taste st)
  | None =>
      liked_ingredients (user_taste st')
      = liked_ingredients (user_taste st) ++ map normalize_ingredient (res_ingredients row)
  end.
Proof.
  cbv zeta. unfold like_offline. rewrite Hfresh. cbn [negb].
  unfold enrich_offline_recipe.
  destruct (requests_get _) as [e|status_code [e|[[|[e|x] results]|]]];
    try destruct (negb _); cbn [fst append_and_save user_taste];
    rewrite liked_ingredients_app; cbn [ingredients get_default map];
    rewrite ?app_nil_r; reflexivity.
Qed.

Lemma offline_like_learns_ingredients_only_without_enrichment_witness :
  let st' := fst (like_offline no_service chole_row chole_session) in
  match fst (enrich_offline_recipe no_service (res_title chole_row)) with
  | Some _ => liked_ingredients (user_taste st') = liked_ingredients (user_taste chole_session)
  | None =>
      liked_ingredients (user_taste st')
      = liked_ingredients (user_taste chole_session)
        ++ map normalize_ingredient (res_ingredients chole_row)
  end.
Proof.
  apply (offline_like_learns_ingredients_only_without_enrichment no_service chole_row
           chole_session).
  reflexivity.
Defined.

(** X22: on the offline results a second like of the same row changes
    nothing whenever the entry stored by the first like carries the title
    of the row, that is when the enrichment fails or answers with that very
    title. *)
Theorem offline_like_twice_when_titles_agree
  (requests_get : Params -> HttpResult) (row : ResultRow) (st : SessionState)
  (Hsame : forall enriched,
      fst (enrich_offline_recipe requests_get (res_title row)) = Some enriched ->
      title enriched = Some (res_title row)) :
  like_offline requests_get row (fst (like_offline requests_get row st))
  = (fst (like_offline requests_get row st), []).
Proof.
  apply like_offline_present. unfold like_offline.
  destruct (liked_has_title (Some (res_title row)) st) eqn:E; cbn [negb fst]; [exact E|].
  destruct (enrich_offline_recipe requests_get (res_title row)) as [[enriched|] events];
    cbn [fst] in *; unfold append_and_save; cbn [fst]; destruct st as [data results mode];
    cbn [user_taste search_results search_mode];
    rewrite liked_has_title_app; apply orb_true_iff; right; apply title_eqb_eq.
  - now apply Hsame.
  - reflexivity.
Qed.

Lemma offline_like_twice_when_titles_agree_witness :
  like_offline no_service chole_row (fst (like_offline no_service chole_row chole_session))
  = (fst (like_offline no_service chole_row chole_session), []).
Proof.
  apply (offline_like_twice_when_titles_agree no_service chole_row chole_session).
  intros enriched H. vm_compute in H. discriminate.
Defined.

Lemma taste_file_after_app events1 events2 taste_file :
  taste_file_after (events1 ++ events2) taste_file
  = taste_file_after events2 (taste_file_after events1 taste_file).
Proof. unfold taste_file_after. apply fold_left_app. Qed.

Lemma taste_file_after_no_saves events taste_file :
  saves events = [] -> taste_file_after events taste_file = taste_file.
Proof.
  unfold taste_file_after. revert taste_file.
  induction events as [|ev events IH]; intros taste_file; [reflexivity|].
  cbn [saves flat_map fold_left]. intros H. apply app_eq_nil in H as [H1 H2].
  destruct ev; try discriminate; now apply IH.
Qed.

(** X23: the taste file follows the session: a fresh session holds what
    the file holds (an empty liked list when there is no file), and after
    Find Recipes, either like button or the remove button the file, as the
    handler's saves leave it, again holds the taste memory of the
    session. *)
Theorem taste_file_stays_in_sync
  (partial_ratio : string -> string -> Q) (recipes_df : list Row)
  (requests_get : Params -> HttpResult) (user_input diet : string)
  (r : Recipe) (row : ResultRow) (taste_file : option UserTaste) (st : SessionState)
  (Hsync : in_sync taste_file st) :
  in_sync taste_file (init_session taste_file)
  /\ (exists st' events,
         find_recipes partial_ratio recipes_df requests_get user_input diet st
         = Some (st', events)
         /\ in_sync (taste_file_after events taste_file) st')
  /\ in_sync (taste_file_after (snd (like_api r st)) taste_file) (fst (like_api r st))
  /\ in_sync (taste_file_after (snd (like_offline requests_get row st)) taste_file)
             (fst (like_offline requests_get row st))
  /\ in_sync (taste_file_after (snd (remove_liked r st)) taste_file)
             (fst (remove_liked r st)).
Proof.
  unfold in_sync in *. split; [reflexivity|]. split; [|split; [|split]].
  - unfold find_recipes. destruct (PyStr.truthy user_input).
    + destruct (get_recipes_from_api_events requests_get user_input diet)
        as (params & _ & Hsave).
      destruct (get_recipes_from_api requests_get user_input diet) as [[|x api] events];
        cbn [snd] in Hsave.
      * destruct (search_offline_recipes_frame partial_ratio recipes_df user_input
                                               (user_taste st)) as (out & -> & _).
        do 2 eexists. split; [reflexivity|].
        now rewrite taste_file_after_no_saves.
      * do 2 eexists. split; [reflexivity|].
        now rewrite taste_file_after_no_saves.
    + do 2 eexists. split; [reflexivity | exact Hsync].
  - unfold like_api. destruct (negb _); [reflexivity | exact Hsync].
  - unfold like_offline. destruct (negb _); [|exact Hsync].
    assert (Hsave := enrich_offline_recipe_events requests_get (res_title row)).
    destruct (enrich_offline_recipe _ _) as [enriched events]. cbn [snd] in Hsave.
    cbn [append_and_save fst snd]. rewrite taste_file_after_app.
    rewrite (taste_file_after_no_saves events) by exact Hsave. reflexivity.
  - reflexivity.
Qed.

Lemma taste_file_stays_in_sync_witness :
  in_sync None (init_session None)
  /\ (exists st' events,
         find_recipes Fuzz.partial_ratio chole_corpus chana_service "chole" "None"
                      (init_session None)
         = Some (st', events)
         /\ in_sync (taste_file_after events None) st')
  /\ in_sync (taste_file_after (snd (like_api dal_recipe (init_session None))) None)
             (fst (like_api dal_recipe (init_session None)))
  /\ in_sync (taste_file_after
                (snd (like_offline chana_service chole_row (init_session None))) None)
             (fst (like_offline chana_service chole_row (init_session None)))
  /\ in_sync (taste_file_after (snd (remove_liked dal_recipe (init_session None))) None)
             (fst (remove_liked dal_recipe (init_session None))).
Proof.
  apply (taste_file_stays_in_sync Fuzz.partial_ratio chole_corpus chana_service
           "chole" "None" dal_recipe chole_row None (init_session None)).
  reflexivity.
Defined.

(** ** The remove button *)

(** X24: the remove button removes every liked recipe with the title of
    the clicked one, however many there are, and no other: afterwards that
    title is not liked, and any other title is liked exactly when it was
    before. *)
Theorem remove_takes_out_exactly_that_title (r : Recipe) (st : SessionState) :
  liked_has_title (title r) (fst (remove_liked r st)) = false
  /\ forall t, t <> title r ->
               liked_has_title t (fst (remove_liked r st)) = liked_has_title t st.
Proof.
  unfold liked_has_title. cbn [remove_liked fst user_taste liked].
  induction (liked (user_taste st)) as [|x l [IH1 IH2]]; [split; reflexivity|].
  cbn [filter]. destruct (title_eqb (title x) (title r)) eqn:E; cbn [negb existsb].
  - split; [exact IH1|]. intros t Ht. rewrite (IH2 t Ht).
    apply title_eqb_eq in E. destruct (title_eqb (title x) t) eqn:E'; [|reflexivity].
    apply title_eqb_eq in E'. congruence.
  - rewrite E, IH1. split; [reflexivity|]. intros t Ht. now rewrite (IH2 t Ht).
Qed.

(** X25: when the liked titles are pairwise different, the remove button
    under a liked recipe deletes exactly that entry: the entries before and
    after it stay, in their order, the search results and the mode are
    untouched, and the shortened list is saved once. *)
Theorem remove_deletes_the_clicked_entry
  (before after : list Recipe) (r : Recipe)
  (results : option Results) (mode : option Mode)
  (Huniq : titles_unique (mkTaste (before ++ r :: after))) :
  remove_liked r (mkSession (mkTaste (before ++ r :: after)) results mode)
  = (mkSession (mkTaste (before ++ after)) results mode,
     [SaveUserTaste (mkTaste (before ++ after))]).
Proof.
  unfold titles_unique in Huniq. cbn [liked] in Huniq.
  rewrite map_app in Huniq. cbn [map] in Huniq.
  apply NoDup_remove_2 in Huniq.
  assert (H : filter (fun x => negb (title_eqb (title x) (title r))) (before ++ r :: after)
              = before ++ after).
  { rewrite filter_app. cbn [filter]. rewrite title_eqb_refl. cbn [negb].
    rewrite !filter_other_titles_id; [reflexivity | |];
      intros Hin; apply Huniq, in_or_app; [now right | now left]. }
  unfold remove_liked. cbn [user_taste liked search_results search_mode].
  now rewrite H.
Qed.

Lemma remove_deletes_the_clicked_entry_witness :
  remove_liked dal_recipe
               (mkSession (mkTaste ([raita_recipe] ++ dal_recipe :: [])) None None)
  = (mkSession (mkTaste ([raita_recipe] ++ [])) None None,
     [SaveUserTaste (mkTaste ([raita_recipe] ++ []))]).
Proof.
  apply (remove_deletes_the_clicked_entry [raita_recipe] [] dal_recipe None None).
  unfold titles_unique. cbn. repeat constructor.
  - intros [H|[]]. discriminate.
  - intros [].
Defined.

(** X26: like then remove is a round trip: liking a recipe of the API
    results whose title is not liked yet and then removing it gives back
    the session as it was. *)
Theorem api_like_then_remove_round_trip (r : Recipe) (st : SessionState)
  (Hfresh : liked_has_title (title r) st = false) :
  fst (remove_liked r (fst (like_api r st))) = st.
Proof.
  unfold like_api. rewrite Hfresh. cbn [negb append_and_save fst remove_liked
                                        user_taste liked search_results search_mode].
  rewrite filter_app. cbn [filter]. rewrite title_eqb_refl. cbn [negb].
  rewrite app_nil_r, filter_other_titles_id.
  - now destruct st as [[l] results mode].
  - rewrite <- liked_has_title_In. congruence.
Qed.

Lemma api_like_then_remove_round_trip_witness :
  fst (remove_liked dal_recipe
         (fst (like_api dal_recipe (mkSession (mkTaste [raita_recipe]) None None))))
  = mkSession (mkTaste [raita_recipe]) None None.
Proof.
  apply (api_like_then_remove_round_trip dal_recipe
           (mkSession (mkTaste [raita_recipe]) None None)).
  reflexivity.
Defined.

(** ** Blank queries *)







